(** * Bedrock guardrails server: payload normalizer and operation dispatcher

    A shallow embedding of [server.py]: the recursive [_filter_none]
    normalizer, the construction of the client keyword arguments from the
    process environment, and the six tool operations with their
    [try ... except ClientError] boundaries, over a model of the Python values
    that travel between the caller, this layer and the Bedrock client. *)

From Stdlib Require Import List String Ascii ZArith Bool Lia.
From Stdlib Require Import DecimalString SpecFloat.
Import ListNotations.
Local Open Scope list_scope.
Local Open Scope string_scope.

(** ** Python values

    The values the server handles are the ones the JSON layer of the client
    produces and accepts: [None], booleans, unbounded integers, floats,
    strings, lists and dicts with string keys.  A dict keeps its entries in
    insertion order, so it is an association list.  A [str] is a Rocq string,
    each character read as a code point below 256. *)

#[local] Unset Elimination Schemes.
Inductive value : Type :=
| VNone
| VBool (b : bool)
| VInt (n : Z)
| VFloat (f : spec_float)
| VStr (s : string)
| VList (xs : list value)
| VDict (items : list (string * value)).
#[local] Set Elimination Schemes.

Definition dict : Type := list (string * value).

(** [v is None] and [v is not None]. *)
Definition is_none (v : value) : bool :=
  match v with VNone => true | _ => false end.

Definition is_not_none (v : value) : bool := negb (is_none v).

(** Truth value of an object, as tested by [if g] and [not g]. *)
Definition truthy (v : value) : bool :=
  match v with
  | VNone => false
  | VBool b => b
  | VInt n => negb (Z.eqb n 0)
  | VFloat (S754_zero _) => false
  | VFloat _ => true
  | VStr s => negb (String.eqb s EmptyString)
  | VList xs => match xs with [] => false | _ => true end
  | VDict items => match items with [] => false | _ => true end
  end.

(** [d[k]] lookup, [d.get(k)], [d.get(k, default)] and [d[k] = v]. *)
Fixpoint dict_lookup (k : string) (d : dict) : option value :=
  match d with
  | [] => None
  | (k', v) :: rest => if String.eqb k k' then Some v else dict_lookup k rest
  end.

Definition dict_get_default (d : dict) (k : string) (default : value) : value :=
  match dict_lookup k d with
  | Some v => v
  | None => default
  end.

Definition dict_get (d : dict) (k : string) : value :=
  dict_get_default d k VNone.

Fixpoint dict_set {A : Type} (d : list (string * A)) (k : string) (v : A)
  : list (string * A) :=
  match d with
  | [] => [(k, v)]
  | (k', v') :: rest =>
      if String.eqb k k' then (k', v) :: rest else (k', v') :: dict_set rest k v
  end.

Definition keys {A : Type} (d : list (string * A)) : list string := map fst d.

(** A comprehension [[f x for x in l if keep x]], for lists and for the
    items of a dict alike. *)
Definition comprehension {A B : Type} (f : A -> B) (keep : A -> bool)
  : list A -> list B :=
  fix go (l : list A) : list B :=
    match l with
    | [] => []
    | x :: rest => if keep x then f x :: go rest else go rest
    end.

(** ** The payload normalizer *)

Fixpoint _filter_none (d : value) : value :=
  match d with
  | VDict items =>
      VDict (comprehension (fun kv => (fst kv, _filter_none (snd kv)))
                           (fun kv => is_not_none (snd kv)) items)
  | VList xs =>
      VList (comprehension _filter_none is_not_none xs)
  | _ => d
  end.

(** *** The contract of the normalizer, relationally

    A second description, written from the design text rather than from the
    code: every mapping entry and every sequence element that is the absent
    sentinel is dropped, every other entry or element is kept in place and
    normalized in turn, and a scalar is left alone. *)

Inductive Normalized : value -> value -> Prop :=
| Normalized_none : Normalized VNone VNone
| Normalized_bool b : Normalized (VBool b) (VBool b)
| Normalized_int n : Normalized (VInt n) (VInt n)
| Normalized_float f : Normalized (VFloat f) (VFloat f)
| Normalized_str s : Normalized (VStr s) (VStr s)
| Normalized_list xs ys :
    NormalizedSeq xs ys -> Normalized (VList xs) (VList ys)
| Normalized_dict items out :
    NormalizedMap items out -> Normalized (VDict items) (VDict out)
with NormalizedSeq : list value -> list value -> Prop :=
| NormalizedSeq_nil : NormalizedSeq [] []
| NormalizedSeq_drop xs ys :
    NormalizedSeq xs ys -> NormalizedSeq (VNone :: xs) ys
| NormalizedSeq_keep x y xs ys :
    x <> VNone -> Normalized x y -> NormalizedSeq xs ys ->
    NormalizedSeq (x :: xs) (y :: ys)
with NormalizedMap : dict -> dict -> Prop :=
| NormalizedMap_nil : NormalizedMap [] []
| NormalizedMap_drop k items out :
    NormalizedMap items out -> NormalizedMap ((k, VNone) :: items) out
| NormalizedMap_keep k v w items out :
    v <> VNone -> Normalized v w -> NormalizedMap items out ->
    NormalizedMap ((k, v) :: items) ((k, w) :: out).

(** No [None] anywhere: neither the value itself, nor an entry of a mapping,
    nor an element of a sequence, at any depth. *)
Fixpoint none_free (v : value) : bool :=
  match v with
  | VNone => false
  | VList xs => forallb none_free xs
  | VDict items => forallb (fun kv => none_free (snd kv)) items
  | _ => true
  end.

(** No [None] inside: no entry of a mapping and no element of a sequence is
    [None], at any depth. *)
Fixpoint no_none_inside (v : value) : bool :=
  match v with
  | VList xs => forallb (fun x => is_not_none x && no_none_inside x) xs
  | VDict items =>
      forallb (fun kv => is_not_none (snd kv) && no_none_inside (snd kv)) items
  | _ => true
  end.

(** All the mappings of a value, at every depth, outermost first. *)
Fixpoint mappings (v : value) : list dict :=
  match v with
  | VDict items => items :: flat_map (fun kv => mappings (snd kv)) items
  | VList xs => flat_map mappings xs
  | _ => []
  end.

(** The entries of a mapping whose value is not the absent sentinel. *)
Definition present (items : dict) : dict :=
  filter (fun kv => is_not_none (snd kv)) items.

(** ** Client keyword arguments from the process environment *)

Definition environ : Type := list (string * string).

Fixpoint environ_lookup (env : environ) (k : string) : option string :=
  match env with
  | [] => None
  | (k', s) :: rest => if String.eqb k k' then Some s else environ_lookup rest k
  end.

(** [os.environ.get(k)] and [os.environ.get(k, default)]. *)
Definition environ_get (env : environ) (k : string) : value :=
  match environ_lookup env k with
  | Some s => VStr s
  | None => VNone
  end.

Definition environ_get_default (env : environ) (k default : string) : value :=
  match environ_lookup env k with
  | Some s => VStr s
  | None => VStr default
  end.

Definition boto3_kwargs (env : environ) : dict :=
  let aws_access_key_id := environ_get env "AWS_ACCESS_KEY_ID" in
  let aws_secret_access_key := environ_get env "AWS_SECRET_ACCESS_KEY" in
  let aws_session_token := environ_get env "AWS_SESSION_TOKEN" in
  let aws_region := environ_get_default env "AWS_REGION" "us-east-1" in
  let kwargs := [("region_name", aws_region)] in
  if truthy aws_access_key_id && truthy aws_secret_access_key then
    let kwargs := dict_set kwargs "aws_access_key_id" aws_access_key_id in
    let kwargs := dict_set kwargs "aws_secret_access_key" aws_secret_access_key in
    if truthy aws_session_token then
      dict_set kwargs "aws_session_token" aws_session_token
    else kwargs
  else kwargs.

(** ** JSON text, as [json.dumps(obj, indent=n)] writes it *)

Definition dquote : ascii := "034"%char.
Definition backslash : ascii := "092"%char.
Definition newline : ascii := "010"%char.

Definition str1 (c : ascii) : string := String c EmptyString.

Fixpoint spaces (n : nat) : string :=
  match n with
  | O => EmptyString
  | S m => String " "%char (spaces m)
  end.

Definition hex_digit (n : N) : ascii :=
  if (n <? 10)%N then ascii_of_N (48 + n) else ascii_of_N (87 + n).

(** ['\\u{0:04x}'.format(n)] for a code point below 256. *)
Definition u_escape (c : ascii) : string :=
  let n := N_of_ascii c in
  String backslash
    (String "u"%char
       (String "0"%char
          (String "0"%char
             (String (hex_digit (n / 16)) (str1 (hex_digit (n mod 16))))))).

(** The replacement of one character by [ESCAPE_ASCII]: a quote, a
    backslash and the five short control escapes come from the table, any
    other character outside [' '..'~'] becomes a [\u] escape. *)
Definition escape_char (c : ascii) : string :=
  let n := N_of_ascii c in
  if (n =? 34)%N then String backslash (str1 dquote)
  else if (n =? 92)%N then String backslash (str1 backslash)
  else if (n =? 8)%N then String backslash (str1 "b"%char)
  else if (n =? 12)%N then String backslash (str1 "f"%char)
  else if (n =? 10)%N then String backslash (str1 "n"%char)
  else if (n =? 13)%N then String backslash (str1 "r"%char)
  else if (n =? 9)%N then String backslash (str1 "t"%char)
  else if ((32 <=? n) && (n <=? 126))%N then str1 c
  else u_escape c.

Fixpoint escape_ascii (s : string) : string :=
  match s with
  | EmptyString => EmptyString
  | String c rest => escape_char c ++ escape_ascii rest
  end.

Definition encode_basestring_ascii (s : string) : string :=
  String dquote (escape_ascii s ++ str1 dquote).

(** [int.__repr__]. *)
Definition int_repr (n : Z) : string := NilZero.string_of_int (Z.to_int n).

Section Json.

(** [float.__repr__] on a finite float is the one part of the encoder that
    is left to the Python runtime. *)
Variable float_repr : spec_float -> string.

Definition floatstr (f : spec_float) : string :=
  match f with
  | S754_nan => "NaN"
  | S754_infinity false => "Infinity"
  | S754_infinity true => "-Infinity"
  | _ => float_repr f
  end.

Section Indent.

Variable indent : nat.

Definition newline_indent (level : nat) : string :=
  String newline (spaces (indent * level)).

Definition item_separator (level : nat) : string :=
  "," ++ newline_indent level.

Definition key_separator : string := ": ".

Fixpoint iterencode (level : nat) (o : value) : string :=
  match o with
  | VNone => "null"
  | VBool true => "true"
  | VBool false => "false"
  | VInt n => int_repr n
  | VFloat f => floatstr f
  | VStr s => encode_basestring_ascii s
  | VList [] => "[]"
  | VList xs =>
      "[" ++ newline_indent (S level)
          ++ String.concat (item_separator (S level))
               (map (iterencode (S level)) xs)
          ++ newline_indent level ++ "]"
  | VDict [] => "{}"
  | VDict items =>
      "{" ++ newline_indent (S level)
          ++ String.concat (item_separator (S level))
               (map (fun kv => encode_basestring_ascii (fst kv)
                                 ++ key_separator
                                 ++ iterencode (S level) (snd kv)) items)
          ++ newline_indent level ++ "}"
  end.

End Indent.

Definition json_dumps (obj : value) (indent : nat) : string :=
  iterencode indent 0 obj.

End Json.

(** ** Exceptions, results and the log *)

Inductive exn : Type :=
| ClientError (message : string)
| BotoCoreError (message : string)
| TypeError
| AttributeError.

Inductive outcome (A : Type) : Type :=
| Return (a : A)
| Raise (e : exn).
Arguments Return {A} a.
Arguments Raise {A} e.

Definition bind {A B : Type} (m : outcome A) (k : A -> outcome B) : outcome B :=
  match m with
  | Return a => k a
  | Raise e => Raise e
  end.

Notation "x <- m ;; k" := (bind m (fun x => k))
  (at level 61, m at next level, right associativity).

(** What a tool call leaves behind: its result, or the exception that escapes
    it, and the lines it gave to [logger.error]. *)
Definition run (A : Type) : Type := (outcome A * list string)%type.

(** [try: body  except ClientError as e: logger.error(line e); return soft e]
    where [e] stands for [str(e)]. *)
Definition try_except_ClientError {A : Type} (body : outcome A)
    (line : string -> string) (soft : string -> A) : run A :=
  match body with
  | Raise (ClientError e) => (Return (soft e), [line e])
  | _ => (body, [])
  end.

(** ** The Bedrock client

    One tool call makes one request (or walks one pagination), so the client
    is what it answers: the pages a pagination yields, the last of which may
    be an exception instead, and the answer to each request. *)

Record client : Type := {
  paginate_list_guardrails : list (outcome dict);
  client_get_guardrail : string -> outcome dict;
  client_create_guardrail : dict -> outcome dict;
  client_update_guardrail : dict -> outcome dict;
  client_delete_guardrail : string -> outcome dict
}.

(** ** The tool operations *)

(** An optional argument: [None] when it is left out. *)
Definition optional {A : Type} (inj : A -> value) (o : option A) : value :=
  match o with
  | Some a => inj a
  | None => VNone
  end.

(** What [list.extend] iterates over: the elements of a list, the keys of a
    dict, the characters of a str; anything else is not iterable. *)
Fixpoint characters (s : string) : list value :=
  match s with
  | EmptyString => []
  | String c rest => VStr (str1 c) :: characters rest
  end.

Definition iterate (v : value) : outcome (list value) :=
  match v with
  | VList xs => Return xs
  | VDict items => Return (map VStr (keys items))
  | VStr s => Return (characters s)
  | _ => Raise TypeError
  end.

(** A call that spreads [payload] into keyword arguments: the payload has to
    be a mapping. *)
Definition call_with_kwargs {A : Type} (f : dict -> outcome A) (payload : value)
  : outcome A :=
  match payload with
  | VDict kwargs => f kwargs
  | _ => Raise TypeError
  end.

(** The loop of [list_guardrails]:
    [for page in paginator.paginate():
       guardrails.extend(page.get("guardrailSummaries", []))]. *)
Fixpoint for_page_in (pages : list (outcome dict)) (guardrails : list value)
  : outcome (list value) :=
  match pages with
  | [] => Return guardrails
  | Raise e :: _ => Raise e
  | Return page :: rest =>
      summaries <- iterate (dict_get_default page "guardrailSummaries" (VList [])) ;;
      for_page_in rest (guardrails ++ summaries)%list
  end.

Definition create_payload
    (name blocked_input_messaging blocked_outputs_messaging : string)
    (description : option string)
    (content_policy_config contextual_grounding_policy_config
       cross_region_config : option dict)
    (kms_key_arn : option string)
    (sensitive_information_policy_config : option dict)
    (tags : option (list value))
    (topic_policy_config word_policy_config : option dict) : value :=
  _filter_none (VDict [
    ("name", VStr name);
    ("blockedInputMessaging", VStr blocked_input_messaging);
    ("blockedOutputsMessaging", VStr blocked_outputs_messaging);
    ("description", optional VStr description);
    ("contentPolicyConfig", optional VDict content_policy_config);
    ("contextualGroundingPolicyConfig",
       optional VDict contextual_grounding_policy_config);
    ("crossRegionConfig", optional VDict cross_region_config);
    ("kmsKeyId", optional VStr kms_key_arn);
    ("sensitiveInformationPolicyConfig",
       optional VDict sensitive_information_policy_config);
    ("tags", optional VList tags);
    ("topicPolicyConfig", optional VDict topic_policy_config);
    ("wordPolicyConfig", optional VDict word_policy_config)
  ]).

Definition update_payload
    (guardrail_id : string)
    (name blocked_input_messaging blocked_outputs_messaging
       description : option string)
    (content_policy_config contextual_grounding_policy_config
       cross_region_config : option dict)
    (kms_key_arn : option string)
    (sensitive_information_policy_config : option dict)
    (tags : option (list value))
    (topic_policy_config word_policy_config : option dict) : value :=
  _filter_none (VDict [
    ("guardrailIdentifier", VStr guardrail_id);
    ("name", optional VStr name);
    ("blockedInputMessaging", optional VStr blocked_input_messaging);
    ("blockedOutputsMessaging", optional VStr blocked_outputs_messaging);
    ("description", optional VStr description);
    ("contentPolicyConfig", optional VDict content_policy_config);
    ("contextualGroundingPolicyConfig",
       optional VDict contextual_grounding_policy_config);
    ("crossRegionConfig", optional VDict cross_region_config);
    ("kmsKeyId", optional VStr kms_key_arn);
    ("sensitiveInformationPolicyConfig",
       optional VDict sensitive_information_policy_config);
    ("tags", optional VList tags);
    ("topicPolicyConfig", optional VDict topic_policy_config);
    ("wordPolicyConfig", optional VDict word_policy_config)
  ]).

(** The [Properties] of the exported resource: the fetched configuration [g]
    under the names of the [AWS::Bedrock::Guardrail] schema. *)
Definition tf_properties (g : dict) : value :=
  _filter_none (VDict [
    ("Name", dict_get g "name");
    ("Description", dict_get g "description");
    ("BlockedInputMessaging", dict_get g "blockedInputMessaging");
    ("BlockedOutputsMessaging", dict_get g "blockedOutputsMessaging");
    ("ContentPolicyConfig", dict_get g "contentPolicy");
    ("ContextualGroundingPolicyConfig", dict_get g "contextualGroundingPolicy");
    ("CrossRegionConfig", dict_get g "crossRegionConfig");
    ("KmsKeyArn", dict_get g "kmsKeyArn");
    ("SensitiveInformationPolicyConfig", dict_get g "sensitiveInformationPolicy");
    ("Tags", dict_get g "tags");
    ("TopicPolicyConfig", dict_get g "topicPolicy");
    ("WordPolicyConfig", dict_get g "wordPolicy")
  ]).

Definition tf_props (g : dict) : value :=
  VDict [("Type", VStr "AWS::Bedrock::Guardrail");
         ("Properties", tf_properties g)].

(** The text before the JSON block:
    [resource "awscc_bedrock_guardrail" "{tf_resource_name}" ], the label
    pasted as it is. *)
Definition tf_header (tf_resource_name : string) : string :=
  "resource " ++ str1 dquote ++ "awscc_bedrock_guardrail" ++ str1 dquote
    ++ " " ++ str1 dquote ++ tf_resource_name ++ str1 dquote ++ " ".

(** The default of the [tf_resource_name] parameter. *)
Definition default_tf_resource_name : string := "bedrock_guardrail".

Section Server.

Variable float_repr : spec_float -> string.
Variable bedrock : client.

Definition list_guardrails : run (list value) :=
  try_except_ClientError
    (for_page_in (paginate_list_guardrails bedrock) [])
    (fun e => "Error listing guardrails: " ++ e)
    (fun _ => []).

Definition get_guardrail (guardrail_id : string) : run value :=
  try_except_ClientError
    (response <- client_get_guardrail bedrock guardrail_id ;;
     Return (dict_get response "guardrail"))
    (fun e => "Error getting guardrail " ++ guardrail_id ++ ": " ++ e)
    (fun _ => VNone).

Definition create_guardrail_full
    (name blocked_input_messaging blocked_outputs_messaging : string)
    (description : option string)
    (content_policy_config contextual_grounding_policy_config
       cross_region_config : option dict)
    (kms_key_arn : option string)
    (sensitive_information_policy_config : option dict)
    (tags : option (list value))
    (topic_policy_config word_policy_config : option dict) : run dict :=
  try_except_ClientError
    (let payload :=
       create_payload name blocked_input_messaging blocked_outputs_messaging
         description content_policy_config
         contextual_grounding_policy_config cross_region_config kms_key_arn
         sensitive_information_policy_config tags topic_policy_config
         word_policy_config in
     response <- call_with_kwargs (client_create_guardrail bedrock) payload ;;
     Return response)
    (fun e => "Error creating guardrail: " ++ e)
    (fun e => [("error", VStr e)]).

Definition update_guardrail_full
    (guardrail_id : string)
    (name blocked_input_messaging blocked_outputs_messaging
       description : option string)
    (content_policy_config contextual_grounding_policy_config
       cross_region_config : option dict)
    (kms_key_arn : option string)
    (sensitive_information_policy_config : option dict)
    (tags : option (list value))
    (topic_policy_config word_policy_config : option dict) : run dict :=
  try_except_ClientError
    (let payload :=
       update_payload guardrail_id name blocked_input_messaging
         blocked_outputs_messaging description content_policy_config
         contextual_grounding_policy_config cross_region_config kms_key_arn
         sensitive_information_policy_config tags topic_policy_config
         word_policy_config in
     response <- call_with_kwargs (client_update_guardrail bedrock) payload ;;
     Return response)
    (fun e => "Error updating guardrail " ++ guardrail_id ++ ": " ++ e)
    (fun e => [("error", VStr e)]).

(** [tf_resource_name] is [None] when the caller leaves the label out. *)
Definition export_guardrail_to_terraform (guardrail_id : string)
    (tf_resource_name : option string) : run string :=
  let tf_resource_name :=
    match tf_resource_name with
    | Some label => label
    | None => default_tf_resource_name
    end in
  try_except_ClientError
    (resp <- client_get_guardrail bedrock guardrail_id ;;
     let g := dict_get resp "guardrail" in
     if negb (truthy g) then
       Return ("No guardrail found for id " ++ guardrail_id)
     else
       match g with
       | VDict g =>
           let tf_block :=
             tf_header tf_resource_name
               ++ json_dumps float_repr (tf_props g) 2 in
           Return tf_block
       | _ => Raise AttributeError
       end)
    (fun e => "Error exporting guardrail " ++ guardrail_id
                ++ " to terraform: " ++ e)
    (fun e => "Error: " ++ e).

Definition delete_guardrail (guardrail_id : string) : run bool :=
  try_except_ClientError
    (_ <- client_delete_guardrail bedrock guardrail_id ;;
     Return true)
    (fun e => "Error deleting guardrail " ++ guardrail_id ++ ": " ++ e)
    (fun _ => false).

End Server.

(** A page whose summaries are the list [xs]; a page without the key has no
    summaries. *)
Definition page_summaries (page : dict) (xs : list value) : Prop :=
  dict_get_default page "guardrailSummaries" (VList []) = VList xs.

(** The field names of the export, internal name first: the table of the
    design text. *)
Definition tf_field_names : list (string * string) :=
  [("name", "Name");
   ("description", "Description");
   ("blockedInputMessaging", "BlockedInputMessaging");
   ("blockedOutputsMessaging", "BlockedOutputsMessaging");
   ("contentPolicy", "ContentPolicyConfig");
   ("contextualGroundingPolicy", "ContextualGroundingPolicyConfig");
   ("crossRegionConfig", "CrossRegionConfig");
   ("kmsKeyArn", "KmsKeyArn");
   ("sensitiveInformationPolicy", "SensitiveInformationPolicyConfig");
   ("tags", "Tags");
   ("topicPolicy", "TopicPolicyConfig");
   ("wordPolicy", "WordPolicyConfig")].

(** [sub in s]. *)
Definition contains (sub s : string) : bool :=
  match String.index 0 sub s with
  | Some _ => true
  | None => false
  end.

(** The text [s] between double quotes. *)
Definition quoted (s : string) : string := str1 dquote ++ s ++ str1 dquote.

(** ** Clients for the examples *)

(** A client whose every request fails with the service error [e]. *)
Definition failing_client (e : string) : client := {|
  paginate_list_guardrails := [Raise (ClientError e)];
  client_get_guardrail := fun _ => Raise (ClientError e);
  client_create_guardrail := fun _ => Raise (ClientError e);
  client_update_guardrail := fun _ => Raise (ClientError e);
  client_delete_guardrail := fun _ => Raise (ClientError e)
|}.

(** A client that answers each [get_guardrail] with [response], lists the
    given [pages], and accepts everything else with an empty response. *)
Definition serving_client (pages : list dict) (response : dict) : client := {|
  paginate_list_guardrails := map Return pages;
  client_get_guardrail := fun _ => Return response;
  client_create_guardrail := fun _ => Return [];
  client_update_guardrail := fun _ => Return [];
  client_delete_guardrail := fun _ => Return []
|}.

(** A client that cannot reach the service: each request ends in an
    exception of the client library, not in an answer of the service. *)
Definition unreachable_client (message : string) : client := {|
  paginate_list_guardrails := [Raise (BotoCoreError message)];
  client_get_guardrail := fun _ => Raise (BotoCoreError message);
  client_create_guardrail := fun _ => Raise (BotoCoreError message);
  client_update_guardrail := fun _ => Raise (BotoCoreError message);
  client_delete_guardrail := fun _ => Raise (BotoCoreError message)
|}.

Definition summary (id : string) : value := VDict [("id", VStr id)].

Definition three_pages : list dict :=
  [[("guardrailSummaries", VList [summary "g1"; summary "g2"])];
   [("guardrailSummaries", VList [summary "g3"; summary "g4"])];
   [("guardrailSummaries", VList [summary "g5"])]].

Definition g1_response : dict :=
  [("guardrail",
    VDict [("name", VStr "g1");
           ("blockedInputMessaging", VStr "blocked-in");
           ("blockedOutputsMessaging", VStr "blocked-out")])].

(** Every mapping of the value, at every depth, has distinct keys, as a
    dict has. *)
Definition distinct_keys (v : value) : Prop :=
  Forall (fun items => NoDup (keys items)) (mappings v).

(** A pagination in which each page that arrives carries a list of
    summaries, or no summaries at all. *)
Definition pages_carry_lists (pages : list (outcome dict)) : Prop :=
  Forall (fun o => forall page, o = Return page ->
                   exists xs, page_summaries page xs) pages.

(** * Properties *)

(** ** Induction on nested values *)

Section ValueInduction.

Variable P : value -> Prop.
Hypothesis P_none : P VNone.
Hypothesis P_bool : forall b, P (VBool b).
Hypothesis P_int : forall n, P (VInt n).
Hypothesis P_float : forall f, P (VFloat f).
Hypothesis P_str : forall s, P (VStr s).
Hypothesis P_list : forall xs, Forall P xs -> P (VList xs).
Hypothesis P_dict :
  forall items, Forall (fun kv => P (snd kv)) items -> P (VDict items).

Fixpoint value_nested_ind (v : value) : P v :=
  match v with
  | VNone => P_none
  | VBool b => P_bool b
  | VInt n => P_int n
  | VFloat f => P_float f
  | VStr s => P_str s
  | VList xs =>
      P_list xs
        ((fix all (l : list value) : Forall P l :=
            match l with
            | [] => Forall_nil P
            | x :: rest => Forall_cons x (value_nested_ind x) (all rest)
            end) xs)
  | VDict items =>
      P_dict items
        ((fix all (l : dict) : Forall (fun kv => P (snd kv)) l :=
            match l with
            | [] => Forall_nil _
            | kv :: rest =>
                Forall_cons kv (value_nested_ind (snd kv)) (all rest)
            end) items)
  end.

End ValueInduction.

(** ** The normalizer *)

Lemma comprehension_map_filter {A B : Type} (f : A -> B) (keep : A -> bool) l :
  comprehension f keep l = map f (filter keep l).
Proof.
  induction l as [|x rest IH]; simpl; [reflexivity|].
  destruct (keep x); simpl; now rewrite IH.
Qed.

Lemma filter_none_dict items :
  _filter_none (VDict items)
  = VDict (map (fun kv => (fst kv, _filter_none (snd kv))) (present items)).
Proof. simpl. now rewrite comprehension_map_filter. Qed.

Lemma is_none_true v : is_none v = true <-> v = VNone.
Proof. destruct v; simpl; split; congruence. Qed.

Lemma is_not_none_true v : is_not_none v = true <-> v <> VNone.
Proof.
  unfold is_not_none. rewrite negb_true_iff, <- is_none_true.
  destruct (is_none v); split; congruence.
Qed.

Lemma is_none_filter_none v : is_none (_filter_none v) = is_none v.
Proof. destruct v; reflexivity. Qed.

Lemma filter_none_is_none v : _filter_none v = VNone <-> v = VNone.
Proof. now rewrite <- !is_none_true, is_none_filter_none. Qed.

Lemma filter_none_scalar v :
  (forall xs, v <> VList xs) -> (forall items, v <> VDict items) ->
  _filter_none v = v.
Proof.
  intros Hl Hd; destruct v; try reflexivity.
  - now elim (Hl xs).
  - now elim (Hd items).
Qed.

(** The code meets the relational contract ... *)
Lemma filter_none_Normalized v : Normalized v (_filter_none v).
Proof.
  induction v as [| | | | |xs IH|items IH] using value_nested_ind;
    try constructor.
  - induction IH as [|x rest Hx _ IHrest]; simpl; [constructor|].
    destruct x; simpl in *; try (constructor; [discriminate|assumption..]).
    now constructor.
  - induction IH as [|[k v] rest Hv _ IHrest]; simpl; [constructor|].
    destruct v; simpl in *; try (constructor; [discriminate|assumption..]).
    now constructor.
Qed.

(** ... and the contract leaves room for no other result. *)
Lemma Normalized_filter_none v : forall o, Normalized v o -> o = _filter_none v.
Proof.
  induction v as [| | | | |xs IH|items IH] using value_nested_ind;
    intros o Ho; inversion Ho as [| | | | |? ys Hs|? out Hs]; subst;
    try reflexivity; simpl; f_equal; clear Ho.
  - revert ys Hs.
    induction IH as [|x rest Hx _ IHrest]; intros ys Hs; inversion Hs; subst.
    + reflexivity.
    + now apply IHrest.
    + simpl.
      replace (is_not_none x) with true
        by (symmetry; now apply is_not_none_true).
      f_equal; auto.
  - revert out Hs.
    induction IH as [|[k v] rest Hv _ IHrest]; intros out Hs;
      inversion Hs; subst.
    + reflexivity.
    + now apply IHrest.
    + simpl in *.
      replace (is_not_none v) with true
        by (symmetry; now apply is_not_none_true).
      f_equal; [f_equal|]; auto.
Qed.

Lemma none_free_filter_none v : v <> VNone -> none_free (_filter_none v) = true.
Proof.
  induction v as [| | | | |xs IH|items IH] using value_nested_ind;
    intros Hv; try reflexivity; [congruence| |].
  - clear Hv. simpl.
    induction IH as [|x rest Hx _ IHrest]; simpl; [reflexivity|].
    destruct (is_not_none x) eqn:Ex; [|assumption].
    simpl. rewrite IHrest, Hx; [reflexivity|now apply is_not_none_true].
  - clear Hv. simpl.
    induction IH as [|[k v] rest Hx _ IHrest]; simpl in *; [reflexivity|].
    destruct (is_not_none v) eqn:Ex; [|assumption].
    simpl. rewrite IHrest, Hx; [reflexivity|now apply is_not_none_true].
Qed.

Lemma filter_none_all_none_dict items :
  Forall (fun kv => snd kv = VNone) items -> _filter_none (VDict items) = VDict [].
Proof.
  intros H. simpl. f_equal.
  induction H as [|[k v] rest Hv _ IH]; simpl in *; [reflexivity|].
  now subst v.
Qed.

Lemma filter_none_all_none_list xs :
  Forall (fun x => x = VNone) xs -> _filter_none (VList xs) = VList [].
Proof.
  intros H. simpl. f_equal.
  induction H as [|x rest Hx _ IH]; simpl in *; [reflexivity|].
  now subst x.
Qed.

Lemma keys_present_in items k :
  In k (keys (present items)) <-> exists v, In (k, v) items /\ v <> VNone.
Proof.
  unfold keys, present. rewrite in_map_iff. split.
  - intros [[k' v] [Hk Hin]]. simpl in Hk. subst k'.
    apply filter_In in Hin. destruct Hin as [Hin Hv].
    exists v. split; [assumption|now apply is_not_none_true].
  - intros [v [Hin Hv]]. exists (k, v). split; [reflexivity|].
    apply filter_In. split; [assumption|now apply is_not_none_true].
Qed.

Lemma keys_filter_none_items items :
  keys (map (fun kv : string * value => (fst kv, _filter_none (snd kv)))
            (present items))
  = keys (present items).
Proof. unfold keys. rewrite map_map. reflexivity. Qed.

Lemma mappings_filter_none v :
  map keys (mappings (_filter_none v))
  = map (fun items => keys (present items)) (mappings v).
Proof.
  induction v as [| | | | |xs IH|items IH] using value_nested_ind;
    try reflexivity.
  - simpl.
    induction IH as [|x rest Hx _ IHrest]; simpl; [reflexivity|].
    rewrite map_app, <- Hx, <- IHrest.
    destruct (is_not_none x) eqn:Ex; simpl; [now rewrite map_app|].
    destruct x; simpl in *; try discriminate. reflexivity.
  - rewrite filter_none_dict. simpl mappings. simpl map. f_equal.
    + apply keys_filter_none_items.
    + unfold present.
      induction IH as [|[k v] rest Hv _ IHrest]; simpl; [reflexivity|].
      simpl in Hv. unfold present in Hv. rewrite map_app, <- Hv, <- IHrest.
      destruct (is_not_none v) eqn:Ev; simpl; [now rewrite map_app|].
      destruct v; simpl in *; try discriminate. reflexivity.
Qed.

Lemma no_none_inside_filter_none v : no_none_inside (_filter_none v) = true.
Proof.
  induction v as [| | | | |xs IH|items IH] using value_nested_ind;
    try reflexivity; simpl.
  - induction IH as [|x rest Hx _ IHrest]; simpl; [reflexivity|].
    destruct (is_not_none x) eqn:Ex; [|assumption].
    simpl. unfold is_not_none at 1. rewrite is_none_filter_none.
    fold (is_not_none x). now rewrite Ex, Hx, IHrest.
  - induction IH as [|[k v] rest Hv _ IHrest]; simpl in *; [reflexivity|].
    destruct (is_not_none v) eqn:Ev; [|assumption].
    simpl. unfold is_not_none at 1. rewrite is_none_filter_none.
    fold (is_not_none v). now rewrite Ev, Hv, IHrest.
Qed.

(** C2: on every value the normalizer drops exactly the mapping entries and
    sequence elements that are [None], at every depth, and nothing else: its
    result is the one the relational contract allows. In the result no entry
    of a mapping and no element of a sequence is [None], at any depth.
    [False], [0] and the empty string are returned unchanged, as is every
    scalar; an empty mapping or sequence stays empty, one whose entries are
    all [None] becomes empty, and no entry or element is turned into [None],
    so what became empty is kept where it stands. *)
Theorem filter_none_removes_exactly_none (v : value) :
  (Normalized v (_filter_none v)
   /\ forall o, Normalized v o -> o = _filter_none v)
  /\ no_none_inside (_filter_none v) = true
  /\ (_filter_none (VBool false) = VBool false
      /\ _filter_none (VInt 0) = VInt 0
      /\ _filter_none (VStr EmptyString) = VStr EmptyString)
  /\ ((forall xs, v <> VList xs) -> (forall items, v <> VDict items) ->
      _filter_none v = v)
  /\ (_filter_none (VDict []) = VDict [] /\ _filter_none (VList []) = VList [])
  /\ (forall items, v = VDict items ->
        Forall (fun kv => snd kv = VNone) items -> _filter_none v = VDict [])
  /\ (forall xs, v = VList xs ->
        Forall (fun x => x = VNone) xs -> _filter_none v = VList [])
  /\ (_filter_none v = VNone <-> v = VNone).
Proof.
  repeat split; try reflexivity.
  - apply filter_none_Normalized.
  - apply Normalized_filter_none.
  - apply no_none_inside_filter_none.
  - apply filter_none_scalar.
  - intros items -> H. now apply filter_none_all_none_dict.
  - intros xs -> H. now apply filter_none_all_none_list.
  - apply filter_none_is_none.
  - apply filter_none_is_none.
Qed.

(** C3: the normalizer is idempotent. *)
Theorem filter_none_twice (M : value) :
  _filter_none (_filter_none M) = _filter_none M.
Proof.
  induction M as [| | | | |xs IH|items IH] using value_nested_ind;
    try reflexivity; simpl; f_equal.
  - induction IH as [|x rest Hx _ IHrest]; simpl; [reflexivity|].
    destruct (is_not_none x) eqn:Ex; [|assumption].
    simpl. unfold is_not_none at 1. rewrite is_none_filter_none.
    fold (is_not_none x). rewrite Ex. now rewrite Hx, IHrest.
  - induction IH as [|[k v] rest Hv _ IHrest]; simpl in *; [reflexivity|].
    destruct (is_not_none v) eqn:Ev; [|assumption].
    simpl. unfold is_not_none at 1. rewrite is_none_filter_none.
    fold (is_not_none v). rewrite Ev. now rewrite Hv, IHrest.
Qed.

(** C8: the normalizer only removes keys. The mappings of the result are, one
    for one and in the same order, the mappings of the input at every depth,
    and the keys of each are the keys of the input mapping whose value is not
    [None], in the input's order; so a key of the result is a key the input
    held with a value other than [None]. *)
Theorem filter_none_keys (v : value) :
  map keys (mappings (_filter_none v))
  = map (fun items => keys (present items)) (mappings v)
  /\ (forall items, v = VDict items ->
        exists out, _filter_none v = VDict out
                    /\ keys out = keys (present items)
                    /\ forall k, In k (keys out) <->
                         exists w, In (k, w) items /\ w <> VNone).
Proof.
  split; [apply mappings_filter_none|].
  intros items ->. rewrite filter_none_dict. eexists. split; [reflexivity|].
  rewrite keys_filter_none_items. split; [reflexivity|].
  intros k. apply keys_present_in.
Qed.

Lemma filter_none_removes_exactly_none_witness :
  _filter_none (VList [VNone; VNone]) = VList []
  /\ _filter_none (VInt 7) = VInt 7.
Proof.
  split.
  - destruct (filter_none_removes_exactly_none (VList [VNone; VNone]))
      as (_ & _ & _ & _ & _ & _ & H & _).
    apply (H [VNone; VNone]); [reflexivity|repeat constructor].
  - destruct (filter_none_removes_exactly_none (VInt 7))
      as (_ & _ & _ & H & _).
    apply H; intros; discriminate.
Defined.

(** ** The client keyword arguments *)

Ltac case_environ env :=
  unfold boto3_kwargs, environ_get, environ_get_default;
  destruct (environ_lookup env "AWS_REGION") as [r|];
  destruct (environ_lookup env "AWS_ACCESS_KEY_ID") as [a|];
  destruct (environ_lookup env "AWS_SECRET_ACCESS_KEY") as [s|];
  destruct (environ_lookup env "AWS_SESSION_TOKEN") as [t|];
  simpl;
  try destruct (String.eqb a EmptyString);
  try destruct (String.eqb s EmptyString);
  try destruct (String.eqb t EmptyString);
  simpl.

Ltac solve_membership :=
  repeat match goal with
         | H : _ \/ _ |- _ => destruct H
         | H : False |- _ => destruct H
         | H : Some _ = None |- _ => discriminate H
         | H : None = Some _ |- _ => discriminate H
         | H : @eq string _ _ |- _ => discriminate H
         end;
  eauto 10.

(** C9: the keyword arguments of the client always carry the region, the
    one of the environment or ["us-east-1"] when it is unset; they carry the
    access key id and the secret key together or not at all, and only when
    the environment sets both; they carry the session token only when both
    keys are passed and the token is set; with a key missing, the region is
    all there is. *)
Theorem boto3_kwargs_credentials (env : environ) :
  dict_lookup "region_name" (boto3_kwargs env)
  = Some (VStr (match environ_lookup env "AWS_REGION" with
                | Some region => region
                | None => "us-east-1"
                end))
  /\ (In "aws_access_key_id" (keys (boto3_kwargs env))
      <-> In "aws_secret_access_key" (keys (boto3_kwargs env)))
  /\ (In "aws_access_key_id" (keys (boto3_kwargs env)) ->
      exists id secret,
        environ_lookup env "AWS_ACCESS_KEY_ID" = Some id
        /\ environ_lookup env "AWS_SECRET_ACCESS_KEY" = Some secret
        /\ dict_lookup "aws_access_key_id" (boto3_kwargs env) = Some (VStr id)
        /\ dict_lookup "aws_secret_access_key" (boto3_kwargs env)
           = Some (VStr secret))
  /\ (In "aws_session_token" (keys (boto3_kwargs env)) ->
      exists token,
        environ_lookup env "AWS_SESSION_TOKEN" = Some token
        /\ dict_lookup "aws_session_token" (boto3_kwargs env)
           = Some (VStr token)
        /\ In "aws_access_key_id" (keys (boto3_kwargs env))
        /\ In "aws_secret_access_key" (keys (boto3_kwargs env)))
  /\ (environ_lookup env "AWS_ACCESS_KEY_ID" = None
      \/ environ_lookup env "AWS_SECRET_ACCESS_KEY" = None ->
      keys (boto3_kwargs env) = ["region_name"]).
Proof.
  repeat split; case_environ env; intros; solve_membership.
Qed.

Lemma boto3_kwargs_credentials_witness :
  exists token,
    environ_lookup [("AWS_ACCESS_KEY_ID", "AKIA"); ("AWS_SECRET_ACCESS_KEY", "s3");
                    ("AWS_SESSION_TOKEN", "tok")] "AWS_SESSION_TOKEN"
    = Some token
    /\ dict_lookup "aws_session_token"
         (boto3_kwargs [("AWS_ACCESS_KEY_ID", "AKIA");
                        ("AWS_SECRET_ACCESS_KEY", "s3");
                        ("AWS_SESSION_TOKEN", "tok")])
       = Some (VStr token)
    /\ In "aws_access_key_id"
         (keys (boto3_kwargs [("AWS_ACCESS_KEY_ID", "AKIA");
                              ("AWS_SECRET_ACCESS_KEY", "s3");
                              ("AWS_SESSION_TOKEN", "tok")]))
    /\ In "aws_secret_access_key"
         (keys (boto3_kwargs [("AWS_ACCESS_KEY_ID", "AKIA");
                              ("AWS_SECRET_ACCESS_KEY", "s3");
                              ("AWS_SESSION_TOKEN", "tok")])).
Proof.
  destruct (boto3_kwargs_credentials
              [("AWS_ACCESS_KEY_ID", "AKIA"); ("AWS_SECRET_ACCESS_KEY", "s3");
               ("AWS_SESSION_TOKEN", "tok")]) as (_ & _ & _ & H & _).
  apply H. simpl. auto.
Defined.

(** ** The operations *)

(** What a [try ... except ClientError] lets through: a result, and any
    exception of another class. *)
Lemma try_except_ClientError_returns {A : Type} (body : outcome A) line soft a :
  body = Return a ->
  try_except_ClientError body line soft = (Return a, []).
Proof. now intros ->. Qed.

Lemma try_except_ClientError_escapes {A : Type} (body : outcome A) line soft x :
  body = Raise x -> (forall e, x <> ClientError e) ->
  try_except_ClientError body line soft = (Raise x, []).
Proof.
  intros -> Hx. destruct x; try reflexivity. now elim (Hx message).
Qed.

Lemma for_page_in_all pages : forall summaries guardrails,
  Forall2 page_summaries pages summaries ->
  for_page_in (map Return pages) guardrails
  = Return (guardrails ++ List.concat summaries)%list.
Proof.
  induction pages as [|page rest IH]; intros summaries guardrails H;
    inversion H as [|? xs ? more Hpage Hrest]; subst; simpl.
  - now rewrite app_nil_r.
  - unfold page_summaries in Hpage. rewrite Hpage. simpl.
    rewrite (IH more) by assumption. now rewrite app_assoc.
Qed.

Lemma for_page_in_raise pages : forall summaries guardrails x rest,
  Forall2 page_summaries pages summaries ->
  for_page_in (map Return pages ++ Raise x :: rest)%list guardrails = Raise x.
Proof.
  induction pages as [|page more IH]; intros summaries guardrails x rest H;
    inversion H as [|? xs ? others Hpage Hrest]; subst; simpl.
  - reflexivity.
  - unfold page_summaries in Hpage. rewrite Hpage. simpl.
    now apply (IH others).
Qed.

Section Boundaries.

Variable float_repr : spec_float -> string.
Variable bedrock : client.

(** C1 (as the code has it): a failure that the client raises as a
    [ClientError], the error answer of the service, is caught where the
    operation ends, for each of the six operations, and comes back as the
    value the operation declares for it: the empty list from list, [None]
    from get, a mapping with the one field [error] from create and update,
    an error text from export, [False] from delete; the operation returns
    and does not raise. An exception of another class that the call
    raises is not caught: it leaves the operation as it came. *)
Theorem client_error_is_soft_failure :
  (forall e,
      (forall pages summaries rest,
          paginate_list_guardrails bedrock
          = (map Return pages ++ Raise (ClientError e) :: rest)%list ->
          Forall2 page_summaries pages summaries ->
          fst (list_guardrails bedrock) = Return [])
      /\ (forall guardrail_id,
             client_get_guardrail bedrock guardrail_id
             = Raise (ClientError e) ->
             fst (get_guardrail bedrock guardrail_id) = Return VNone)
      /\ (forall name blocked_in blocked_out description content grounding
                 cross_region kms sensitive tags topic word,
             call_with_kwargs (client_create_guardrail bedrock)
               (create_payload name blocked_in blocked_out description
                  content grounding cross_region kms sensitive tags topic
                  word)
             = Raise (ClientError e) ->
             fst (create_guardrail_full bedrock name blocked_in blocked_out
                    description content grounding cross_region kms
                    sensitive tags topic word)
             = Return [("error", VStr e)])
      /\ (forall guardrail_id name blocked_in blocked_out description
                 content grounding cross_region kms sensitive tags topic
                 word,
             call_with_kwargs (client_update_guardrail bedrock)
               (update_payload guardrail_id name blocked_in blocked_out
                  description content grounding cross_region kms sensitive
                  tags topic word)
             = Raise (ClientError e) ->
             fst (update_guardrail_full bedrock guardrail_id name
                    blocked_in blocked_out description content grounding
                    cross_region kms sensitive tags topic word)
             = Return [("error", VStr e)])
      /\ (forall guardrail_id tf_resource_name,
             client_get_guardrail bedrock guardrail_id
             = Raise (ClientError e) ->
             fst (export_guardrail_to_terraform float_repr bedrock
                    guardrail_id tf_resource_name)
             = Return ("Error: " ++ e))
      /\ (forall guardrail_id,
             client_delete_guardrail bedrock guardrail_id
             = Raise (ClientError e) ->
             fst (delete_guardrail bedrock guardrail_id) = Return false))
  /\ (forall x, (forall e, x <> ClientError e) ->
      (forall pages summaries rest,
          paginate_list_guardrails bedrock
          = (map Return pages ++ Raise x :: rest)%list ->
          Forall2 page_summaries pages summaries ->
          fst (list_guardrails bedrock) = Raise x)
      /\ (forall guardrail_id,
             client_get_guardrail bedrock guardrail_id = Raise x ->
             fst (get_guardrail bedrock guardrail_id) = Raise x)
      /\ (forall name blocked_in blocked_out description content grounding
                 cross_region kms sensitive tags topic word,
             call_with_kwargs (client_create_guardrail bedrock)
               (create_payload name blocked_in blocked_out description
                  content grounding cross_region kms sensitive tags topic
                  word)
             = Raise x ->
             fst (create_guardrail_full bedrock name blocked_in blocked_out
                    description content grounding cross_region kms
                    sensitive tags topic word)
             = Raise x)
      /\ (forall guardrail_id name blocked_in blocked_out description
                 content grounding cross_region kms sensitive tags topic
                 word,
             call_with_kwargs (client_update_guardrail bedrock)
               (update_payload guardrail_id name blocked_in blocked_out
                  description content grounding cross_region kms sensitive
                  tags topic word)
             = Raise x ->
             fst (update_guardrail_full bedrock guardrail_id name
                    blocked_in blocked_out description content grounding
                    cross_region kms sensitive tags topic word)
             = Raise x)
      /\ (forall guardrail_id tf_resource_name,
             client_get_guardrail bedrock guardrail_id = Raise x ->
             fst (export_guardrail_to_terraform float_repr bedrock
                    guardrail_id tf_resource_name)
             = Raise x)
      /\ (forall guardrail_id,
             client_delete_guardrail bedrock guardrail_id = Raise x ->
             fst (delete_guardrail bedrock guardrail_id) = Raise x)).
Proof.
  split.
  - intros e. repeat split.
    + intros pages summaries rest Hpages Hsum. unfold list_guardrails.
      rewrite Hpages, (for_page_in_raise pages summaries) by assumption.
      reflexivity.
    + intros guardrail_id H. unfold get_guardrail. now rewrite H.
    + intros until word. intros H. unfold create_guardrail_full.
      cbv zeta. unfold bind at 1. now rewrite H.
    + intros until word. intros H. unfold update_guardrail_full.
      cbv zeta. unfold bind at 1. now rewrite H.
    + intros guardrail_id tf_resource_name H.
      unfold export_guardrail_to_terraform. now rewrite H.
    + intros guardrail_id H. unfold delete_guardrail. now rewrite H.
  - intros x Hx.
    assert (Hescape : forall (A : Type) line (soft : string -> A),
               fst (try_except_ClientError (Raise x) line soft) = Raise x)
      by (intros; now rewrite (try_except_ClientError_escapes _ _ _ x)).
    repeat split.
    + intros pages summaries rest Hpages Hsum. unfold list_guardrails.
      rewrite Hpages, (for_page_in_raise pages summaries) by assumption.
      apply Hescape.
    + intros guardrail_id H. unfold get_guardrail. rewrite H.
      apply Hescape.
    + intros until word. intros H. unfold create_guardrail_full.
      cbv zeta. unfold bind at 1. rewrite H. apply Hescape.
    + intros until word. intros H. unfold update_guardrail_full.
      cbv zeta. unfold bind at 1. rewrite H. apply Hescape.
    + intros guardrail_id tf_resource_name H.
      unfold export_guardrail_to_terraform. rewrite H. apply Hescape.
    + intros guardrail_id H. unfold delete_guardrail. rewrite H.
      apply Hescape.
Qed.

(** The line given to the logger names the operation and the identifier. *)
Lemma client_error_is_logged (guardrail_id e : string) :
  client_delete_guardrail bedrock guardrail_id = Raise (ClientError e) ->
  snd (delete_guardrail bedrock guardrail_id)
  = ["Error deleting guardrail " ++ guardrail_id ++ ": " ++ e].
Proof. intros H. unfold delete_guardrail. now rewrite H. Qed.

End Boundaries.

(** The claim read literally fails when the call ends in an exception that is
    not a [ClientError], such as a connection failure: delete raises it. *)
Lemma delete_guardrail_unreachable_raises :
  fst (delete_guardrail (unreachable_client "Could not connect") "gr-1")
  = Raise (BotoCoreError "Could not connect").
Proof. reflexivity. Qed.

Lemma client_error_is_soft_failure_witness :
  fst (list_guardrails (failing_client "Throttled")) = Return []
  /\ fst (get_guardrail (failing_client "Throttled") "gr-1") = Return VNone
  /\ fst (delete_guardrail (failing_client "Throttled") "gr-1") = Return false
  /\ fst (export_guardrail_to_terraform (fun _ => "0.0")
            (failing_client "Throttled") "gr-1" None)
     = Return "Error: Throttled".
Proof.
  destruct (client_error_is_soft_failure (fun _ => "0.0")
              (failing_client "Throttled")) as (Hcaught & _).
  destruct (Hcaught "Throttled")
    as (Hlist & Hget & _ & _ & Hexport & Hdelete).
  split; [|split; [|split]].
  - apply (Hlist [] [] []); [reflexivity|constructor].
  - now apply Hget.
  - now apply Hdelete.
  - now apply Hexport.
Defined.

(** C5: list walks the pagination to its end and returns the summaries of
    all the pages, joined in page order, however many pages there are; on
    three pages of 2, 2 and 1 summaries it returns the five of them in
    order. *)
Theorem list_guardrails_all_pages :
  (forall bedrock pages summaries,
      paginate_list_guardrails bedrock = map Return pages ->
      Forall2 page_summaries pages summaries ->
      list_guardrails bedrock = (Return (List.concat summaries), []))
  /\ list_guardrails (serving_client three_pages [])
     = (Return [summary "g1"; summary "g2"; summary "g3"; summary "g4";
                summary "g5"], [])
  /\ (forall xs, fst (list_guardrails (serving_client three_pages []))
                 = Return xs -> List.length xs = 5%nat).
Proof.
  split; [|split].
  - intros bedrock pages summaries Hpages Hsum. unfold list_guardrails.
    rewrite Hpages, (for_page_in_all pages summaries) by assumption.
    reflexivity.
  - reflexivity.
  - intros xs H. inversion H. reflexivity.
Qed.

Lemma list_guardrails_all_pages_witness :
  list_guardrails (serving_client three_pages [])
  = (Return (List.concat [[summary "g1"; summary "g2"];
                          [summary "g3"; summary "g4"];
                          [summary "g5"]]), []).
Proof.
  destruct list_guardrails_all_pages as (H & _).
  apply (H (serving_client three_pages []) three_pages).
  - reflexivity.
  - repeat constructor.
Defined.

(** C6 (as the code has it): get on an identifier the service does not
    know, which the service reports by a [ClientError] or by a response with
    no [guardrail] field, returns [None]; on a response with a [guardrail]
    field it returns that field, whole; and whichever [ClientError] the
    service raises, for a missing guardrail or for a passing failure such
    as throttling, the value returned is the same [None]. A passing failure
    that the client raises as an exception of another class, a connection
    that fails or times out, is not caught: get raises it, and it is told
    apart from a missing guardrail. *)
Theorem get_guardrail_absent_or_unwrapped (guardrail_id : string) :
  (forall bedrock e,
      client_get_guardrail bedrock guardrail_id = Raise (ClientError e) ->
      fst (get_guardrail bedrock guardrail_id) = Return VNone)
  /\ (forall bedrock response,
         client_get_guardrail bedrock guardrail_id = Return response ->
         dict_lookup "guardrail" response = None ->
         get_guardrail bedrock guardrail_id = (Return VNone, []))
  /\ (forall bedrock response g,
         client_get_guardrail bedrock guardrail_id = Return response ->
         dict_lookup "guardrail" response = Some g ->
         get_guardrail bedrock guardrail_id = (Return g, []))
  /\ (forall missing failing not_found transient,
         client_get_guardrail missing guardrail_id
         = Raise (ClientError not_found) ->
         client_get_guardrail failing guardrail_id
         = Raise (ClientError transient) ->
         fst (get_guardrail missing guardrail_id)
         = fst (get_guardrail failing guardrail_id))
  /\ (forall bedrock x,
         (forall e, x <> ClientError e) ->
         client_get_guardrail bedrock guardrail_id = Raise x ->
         get_guardrail bedrock guardrail_id = (Raise x, [])).
Proof.
  split; [|split; [|split; [|split]]].
  - intros bedrock e H. unfold get_guardrail. now rewrite H.
  - intros bedrock response H Hg. unfold get_guardrail. rewrite H. simpl.
    unfold dict_get, dict_get_default. now rewrite Hg.
  - intros bedrock response g H Hg. unfold get_guardrail. rewrite H. simpl.
    unfold dict_get, dict_get_default. now rewrite Hg.
  - intros missing failing not_found transient H1 H2.
    unfold get_guardrail. now rewrite H1, H2.
  - intros bedrock x Hx H. unfold get_guardrail. rewrite H.
    now apply try_except_ClientError_escapes.
Qed.

(** The claim read literally fails on a failure that is not a [ClientError]:
    when the service cannot be reached, get raises instead of returning
    [None], so this failure is told apart from a missing guardrail. *)
Lemma get_guardrail_unreachable_raises :
  get_guardrail (unreachable_client "Connect timeout") "gr-1"
  = (Raise (BotoCoreError "Connect timeout"), [])
  /\ fst (get_guardrail (failing_client "ResourceNotFoundException") "gr-1")
     = Return VNone.
Proof. split; reflexivity. Qed.

Lemma get_guardrail_absent_or_unwrapped_witness :
  fst (get_guardrail (failing_client "ResourceNotFoundException") "gr-1")
  = fst (get_guardrail (failing_client "ThrottlingException") "gr-1")
  /\ get_guardrail (serving_client [] g1_response) "gr-1"
     = (Return (VDict [("name", VStr "g1");
                       ("blockedInputMessaging", VStr "blocked-in");
                       ("blockedOutputsMessaging", VStr "blocked-out")]), [])
  /\ get_guardrail (unreachable_client "Connect timeout") "gr-1"
     = (Raise (BotoCoreError "Connect timeout"), []).
Proof.
  destruct (get_guardrail_absent_or_unwrapped "gr-1")
    as (_ & _ & Hg & Hsame & Hescape).
  split; [|split].
  - now apply (Hsame _ _ "ResourceNotFoundException" "ThrottlingException").
  - now apply (Hg _ g1_response).
  - apply Hescape; [discriminate|reflexivity].
Defined.

(** ** Not found, in get and in export *)

Lemma not_found_is_not_an_error guardrail_id e :
  "No guardrail found for id " ++ guardrail_id <> "Error: " ++ e.
Proof. simpl. discriminate. Qed.

(** C10 (as the code has it): when the call succeeds, get returns the
    [guardrail] field of the response as it is: [None] exactly when the field
    is missing or is [None], and the field itself when it is there but empty
    (an empty mapping comes back as an empty mapping, not as [None]). Export
    answers ["No guardrail found for id <id>"] exactly when the call
    succeeds and the field is missing, [None] or otherwise false; a
    [ClientError], such as the service's own not-found error, gives the
    ["Error: ..."] text instead, which is a different text. *)
Theorem not_found_on_empty_response
    (float_repr : spec_float -> string) (bedrock : client)
    (guardrail_id : string) (tf_resource_name : option string) :
  (forall response,
      client_get_guardrail bedrock guardrail_id = Return response ->
      fst (get_guardrail bedrock guardrail_id)
      = Return (dict_get response "guardrail")
      /\ (dict_get response "guardrail" = VNone <->
          dict_lookup "guardrail" response = None
          \/ dict_lookup "guardrail" response = Some VNone)
      /\ (truthy (dict_get response "guardrail") = false ->
          fst (export_guardrail_to_terraform float_repr bedrock guardrail_id
                 tf_resource_name)
          = Return ("No guardrail found for id " ++ guardrail_id)))
  /\ (fst (export_guardrail_to_terraform float_repr bedrock guardrail_id
             tf_resource_name)
      = Return ("No guardrail found for id " ++ guardrail_id) ->
      exists response,
        client_get_guardrail bedrock guardrail_id = Return response
        /\ truthy (dict_get response "guardrail") = false)
  /\ (forall e,
         client_get_guardrail bedrock guardrail_id = Raise (ClientError e) ->
         fst (export_guardrail_to_terraform float_repr bedrock guardrail_id
                tf_resource_name)
         = Return ("Error: " ++ e)
         /\ "Error: " ++ e <> "No guardrail found for id " ++ guardrail_id).
Proof.
  split; [|split].
  - intros response H. split; [|split].
    + unfold get_guardrail. now rewrite H.
    + unfold dict_get, dict_get_default.
      destruct (dict_lookup "guardrail" response) as [g|]; split;
        try (intros ->); intros; auto;
        repeat match goal with
               | H : _ \/ _ |- _ => destruct H
               end; congruence.
    + intros Hg. unfold export_guardrail_to_terraform. rewrite H. simpl.
      now rewrite Hg.
  - unfold export_guardrail_to_terraform.
    destruct (client_get_guardrail bedrock guardrail_id) as [response|x].
    + simpl. destruct (truthy (dict_get response "guardrail")) eqn:Hg.
      * simpl. destruct (dict_get response "guardrail"); simpl; discriminate.
      * intros _. now exists response.
    + destruct x; simpl; discriminate.
  - intros e H. split.
    + unfold export_guardrail_to_terraform. now rewrite H.
    + intros H'. symmetry in H'. now apply not_found_is_not_an_error in H'.
Qed.

(** The claim read literally fails on a response whose [guardrail] field is
    there and empty: get returns the empty mapping, not [None], while
    export reports that no guardrail was found. *)
Lemma get_guardrail_empty_field_is_not_None :
  fst (get_guardrail (serving_client [] [("guardrail", VDict [])]) "gr-1")
  = Return (VDict [])
  /\ is_none (VDict []) = false
  /\ fst (export_guardrail_to_terraform (fun _ => "0.0")
            (serving_client [] [("guardrail", VDict [])]) "gr-1" None)
     = Return "No guardrail found for id gr-1".
Proof. repeat split. Qed.

Lemma not_found_on_empty_response_witness :
  fst (export_guardrail_to_terraform (fun _ => "0.0")
         (serving_client [] [("other", VInt 1)]) "gr-1" None)
  = Return "No guardrail found for id gr-1"
  /\ fst (export_guardrail_to_terraform (fun _ => "0.0")
            (failing_client "ResourceNotFoundException") "gr-1" None)
     = Return "Error: ResourceNotFoundException".
Proof.
  split.
  - destruct (not_found_on_empty_response (fun _ => "0.0")
                (serving_client [] [("other", VInt 1)]) "gr-1" None)
      as (H & _).
    destruct (H [("other", VInt 1)] eq_refl) as (_ & _ & Hexport).
    now apply Hexport.
  - destruct (not_found_on_empty_response (fun _ => "0.0")
                (failing_client "ResourceNotFoundException") "gr-1" None)
      as (_ & _ & H).
    now apply (H "ResourceNotFoundException").
Defined.

(** ** The payload of create *)

(** The key of an optional argument is among the keys sent exactly when the
    argument is given. *)
Ltac sent_iff_supplied :=
  rewrite keys_filter_none_items, keys_present_in; split;
  [ intros (v & Hin & Hv); simpl in Hin;
    repeat (destruct Hin as [Hin|Hin];
            [ inversion Hin; subst;
              first [ discriminate | intros ->; now apply Hv ] | ]);
    destruct Hin
  | intros Ho; eexists; split;
    [ simpl; eauto 20
    | match goal with
      | H : ?o <> None |- _ => destruct o; [discriminate | now elim H]
      end ] ].

Section CreatePayload.

Variables name blocked_input_messaging blocked_outputs_messaging : string.
Variable description : option string.
Variables content_policy_config contextual_grounding_policy_config
          cross_region_config : option dict.
Variable kms_key_arn : option string.
Variable sensitive_information_policy_config : option dict.
Variable tags : option (list value).
Variables topic_policy_config word_policy_config : option dict.

Let payload : value :=
  create_payload name blocked_input_messaging blocked_outputs_messaging
    description content_policy_config contextual_grounding_policy_config
    cross_region_config kms_key_arn sensitive_information_policy_config
    tags topic_policy_config word_policy_config.

(** C7: the payload create sends is a mapping that always holds the three
    required fields, holds the key of an optional field exactly when its
    argument is not [None], and holds no [None] at any depth; it is the
    keyword arguments of the one request the operation makes. *)
Theorem create_payload_fields :
  exists kwargs,
    payload = VDict kwargs
    /\ (dict_lookup "name" kwargs = Some (VStr name)
        /\ dict_lookup "blockedInputMessaging" kwargs
           = Some (VStr blocked_input_messaging)
        /\ dict_lookup "blockedOutputsMessaging" kwargs
           = Some (VStr blocked_outputs_messaging))
    /\ ((In "description" (keys kwargs) <-> description <> None)
        /\ (In "contentPolicyConfig" (keys kwargs)
            <-> content_policy_config <> None)
        /\ (In "contextualGroundingPolicyConfig" (keys kwargs)
            <-> contextual_grounding_policy_config <> None)
        /\ (In "crossRegionConfig" (keys kwargs)
            <-> cross_region_config <> None)
        /\ (In "kmsKeyId" (keys kwargs) <-> kms_key_arn <> None)
        /\ (In "sensitiveInformationPolicyConfig" (keys kwargs)
            <-> sensitive_information_policy_config <> None)
        /\ (In "tags" (keys kwargs) <-> tags <> None)
        /\ (In "topicPolicyConfig" (keys kwargs)
            <-> topic_policy_config <> None)
        /\ (In "wordPolicyConfig" (keys kwargs)
            <-> word_policy_config <> None))
    /\ none_free payload = true
    /\ (forall k v, In (k, v) kwargs -> v <> VNone)
    /\ (forall bedrock : client,
           fst (create_guardrail_full bedrock name blocked_input_messaging
                  blocked_outputs_messaging description
                  content_policy_config contextual_grounding_policy_config
                  cross_region_config kms_key_arn
                  sensitive_information_policy_config tags
                  topic_policy_config word_policy_config)
           = match client_create_guardrail bedrock kwargs with
             | Raise (ClientError e) => Return [("error", VStr e)]
             | answer => answer
             end).
Proof.
  assert (Hfree : none_free payload = true)
    by (apply none_free_filter_none; discriminate).
  unfold payload in *. unfold create_payload in *.
  rewrite filter_none_dict in *.
  eexists. split; [reflexivity|].
  split; [|split; [|split; [|split]]].
  - unfold present. simpl. repeat split.
  - repeat match goal with |- _ /\ _ => split end; sent_iff_supplied.
  - exact Hfree.
  - intros k v Hin. apply in_map_iff in Hin.
    destruct Hin as ([k' w] & Heq & Hin). inversion Heq; subst.
    apply filter_In in Hin. destruct Hin as [_ Hw]. simpl in Hw.
    apply is_not_none_true in Hw.
    now rewrite filter_none_is_none.
  - intros bedrock. unfold create_guardrail_full, create_payload.
    cbv zeta. rewrite filter_none_dict. unfold call_with_kwargs.
    destruct (client_create_guardrail bedrock _) as [response|[]];
      reflexivity.
Qed.

End CreatePayload.

(** ** The exported block *)

Lemma string_app_assoc (a b c : string) : (a ++ b) ++ c = a ++ b ++ c.
Proof. induction a as [|ch a IH]; simpl; [reflexivity|now rewrite IH]. Qed.

Lemma tf_header_text label :
  tf_header label
  = "resource " ++ quoted "awscc_bedrock_guardrail" ++ " " ++ quoted label
      ++ " ".
Proof.
  unfold tf_header, quoted. simpl. now rewrite !string_app_assoc.
Qed.

(** The properties are the fetched configuration under the names of the
    table, the fields that are missing or [None] left out, each value
    normalized. *)
Lemma tf_properties_rekeyed g :
  tf_properties g
  = VDict (map (fun names => (snd names, _filter_none (dict_get g (fst names))))
             (filter (fun names => is_not_none (dict_get g (fst names)))
                tf_field_names)).
Proof.
  unfold tf_properties. rewrite filter_none_dict. f_equal.
  change (present _)
    with (present (map (fun names => (snd names, dict_get g (fst names)))
                     tf_field_names)).
  unfold present. rewrite filter_map_swap, map_map. reflexivity.
Qed.

(** C4: for a fetched guardrail (a response whose [guardrail] field is a
    mapping that is not empty) export returns the header
    [resource "awscc_bedrock_guardrail" "<label>" ], the label being the
    caller's or ["bedrock_guardrail"], followed by a JSON object indented by
    two spaces whose two keys are [Type] and [Properties]; the properties
    are the fetched configuration under the names of the table, normalized.
    For the configuration with only name ["g1"] and the two messages, the
    block holds the three fields and no other. *)
Theorem export_terraform_block :
  (forall float_repr bedrock guardrail_id tf_resource_name response g,
      client_get_guardrail bedrock guardrail_id = Return response ->
      dict_get response "guardrail" = VDict g -> g <> [] ->
      exists properties,
        properties
        = map (fun names => (snd names, _filter_none (dict_get g (fst names))))
            (filter (fun names => is_not_none (dict_get g (fst names)))
               tf_field_names)
        /\ export_guardrail_to_terraform float_repr bedrock guardrail_id
             tf_resource_name
           = (Return
                ("resource " ++ quoted "awscc_bedrock_guardrail" ++ " "
                   ++ quoted (match tf_resource_name with
                              | Some label => label
                              | None => "bedrock_guardrail"
                              end) ++ " "
                   ++ "{" ++ str1 newline
                   ++ "  " ++ quoted "Type" ++ ": "
                   ++ quoted "AWS::Bedrock::Guardrail" ++ "," ++ str1 newline
                   ++ "  " ++ quoted "Properties" ++ ": "
                   ++ iterencode float_repr 2 1 (VDict properties)
                   ++ str1 newline ++ "}"), []))
  /\ (forall float_repr,
         export_guardrail_to_terraform float_repr
           (serving_client [] g1_response) "gr-1" None
         = (Return
              ("resource " ++ quoted "awscc_bedrock_guardrail" ++ " "
                 ++ quoted "bedrock_guardrail" ++ " {" ++ str1 newline
                 ++ "  " ++ quoted "Type" ++ ": "
                 ++ quoted "AWS::Bedrock::Guardrail" ++ "," ++ str1 newline
                 ++ "  " ++ quoted "Properties" ++ ": {" ++ str1 newline
                 ++ "    " ++ quoted "Name" ++ ": " ++ quoted "g1" ++ ","
                 ++ str1 newline
                 ++ "    " ++ quoted "BlockedInputMessaging" ++ ": "
                 ++ quoted "blocked-in" ++ "," ++ str1 newline
                 ++ "    " ++ quoted "BlockedOutputsMessaging" ++ ": "
                 ++ quoted "blocked-out" ++ str1 newline
                 ++ "  }" ++ str1 newline ++ "}"), [])
         /\ forall blob,
             fst (export_guardrail_to_terraform float_repr
                    (serving_client [] g1_response) "gr-1" None)
             = Return blob ->
             contains (quoted "Name" ++ ": " ++ quoted "g1") blob = true
             /\ contains (quoted "BlockedInputMessaging" ++ ": "
                            ++ quoted "blocked-in") blob = true
             /\ contains (quoted "BlockedOutputsMessaging" ++ ": "
                            ++ quoted "blocked-out") blob = true
             /\ forallb (fun names =>
                           negb (contains (quoted (snd names)) blob))
                  (skipn 4 tf_field_names) = true
             /\ contains (quoted "Description") blob = false)
  /\ tf_properties
       [("name", VStr "g1"); ("blockedInputMessaging", VStr "blocked-in");
        ("blockedOutputsMessaging", VStr "blocked-out")]
     = VDict [("Name", VStr "g1"); ("BlockedInputMessaging", VStr "blocked-in");
              ("BlockedOutputsMessaging", VStr "blocked-out")].
Proof.
  split; [|split].
  - intros float_repr bedrock guardrail_id tf_resource_name response g
           Hresp Hg Hne.
    eexists. split; [reflexivity|].
    unfold export_guardrail_to_terraform. rewrite Hresp.
    unfold bind. rewrite Hg.
    replace (truthy (VDict g)) with true by (now destruct g).
    cbv beta iota delta [negb].
    rewrite try_except_ClientError_returns
      with (a := (tf_header (match tf_resource_name with
                             | Some label => label
                             | None => default_tf_resource_name
                             end)
                    ++ json_dumps float_repr (tf_props g) 2))
      by reflexivity.
    f_equal. f_equal.
    rewrite tf_header_text. unfold json_dumps, tf_props.
    rewrite tf_properties_rekeyed.
    unfold default_tf_resource_name.
    rewrite !string_app_assoc. reflexivity.
  - intros float_repr. split; [reflexivity|].
    intros blob H. inversion H. vm_compute. repeat split.
  - reflexivity.
Qed.

Lemma export_terraform_block_witness :
  exists properties,
    properties
    = map (fun names =>
             (snd names,
              _filter_none
                (dict_get [("name", VStr "g1"); ("tags", VNone)] (fst names))))
        (filter (fun names =>
                   is_not_none
                     (dict_get [("name", VStr "g1"); ("tags", VNone)]
                        (fst names)))
           tf_field_names)
    /\ export_guardrail_to_terraform (fun _ => "0.0")
         (serving_client []
            [("guardrail", VDict [("name", VStr "g1"); ("tags", VNone)])])
         "gr-1" (Some "main")
       = (Return
            ("resource " ++ quoted "awscc_bedrock_guardrail" ++ " "
               ++ quoted "main" ++ " "
               ++ "{" ++ str1 newline
               ++ "  " ++ quoted "Type" ++ ": "
               ++ quoted "AWS::Bedrock::Guardrail" ++ "," ++ str1 newline
               ++ "  " ++ quoted "Properties" ++ ": "
               ++ iterencode (fun _ => "0.0") 2 1 (VDict properties)
               ++ str1 newline ++ "}"), []).
Proof.
  destruct export_terraform_block as (H & _).
  apply (H (fun _ => "0.0")
           (serving_client []
              [("guardrail", VDict [("name", VStr "g1"); ("tags", VNone)])])
           "gr-1" (Some "main")
           [("guardrail", VDict [("name", VStr "g1"); ("tags", VNone)])]).
  - reflexivity.
  - reflexivity.
  - discriminate.
Defined.

(** * Further properties of the code *)

(** ** The normalizer on clean values, on lookups and on keys *)

Lemma comprehension_length {A B : Type} (f : A -> B) keep l :
  (List.length (comprehension f keep l) <= List.length l)%nat.
Proof.
  induction l as [|x rest IH]; simpl; [lia|].
  destruct (keep x); simpl; lia.
Qed.

Lemma comprehension_fixed {A : Type} (f : A -> A) keep l :
  comprehension f keep l = l <->
  Forall (fun x => keep x = true /\ f x = x) l.
Proof.
  induction l as [|x rest IH]; simpl.
  - split; [constructor|reflexivity].
  - destruct (keep x) eqn:Hx; split; intros H.
    + inversion H as [[Hf Hrest]]. rewrite Hf, Hrest.
      constructor; [now split|now apply IH].
    + inversion H as [|? ? [_ Hfix] Hrest]; subst.
      rewrite Hfix. f_equal. now apply IH.
    + pose proof (comprehension_length f keep rest) as Hlen.
      rewrite H in Hlen. simpl in Hlen. lia.
    + inversion H as [|? ? [Hkeep _] _]; subst.
      rewrite Hx in Hkeep. discriminate.
Qed.

Lemma none_free_is_not_none v : none_free v = true -> is_not_none v = true.
Proof. unfold is_not_none. destruct v; simpl; congruence. Qed.

(** The values the normalizer leaves as they are: [None] itself, and the
    values that hold no [None] at any depth. *)
Theorem filter_none_fixed_points (v : value) :
  _filter_none v = v <-> v = VNone \/ none_free v = true.
Proof.
  induction v as [| | | | |xs IH|items IH] using value_nested_ind;
    try (split; [intros _; now right | reflexivity]).
  - split; [now left|reflexivity].
  - rewrite Forall_forall in IH. split.
    + intros H. right. simpl in *. injection H as H'.
      apply comprehension_fixed in H'. rewrite Forall_forall in H'.
      apply forallb_forall. intros x Hin.
      destruct (H' x Hin) as [Hkeep Hfix].
      destruct (proj1 (IH x Hin) Hfix) as [->|Hfree];
        [discriminate|assumption].
    + intros [H|H]; [discriminate|]. simpl in *. f_equal.
      apply comprehension_fixed. apply Forall_forall. intros x Hin.
      rewrite forallb_forall in H. specialize (H x Hin). split.
      * now apply none_free_is_not_none.
      * apply (IH x Hin). now right.
  - rewrite Forall_forall in IH. split.
    + intros H. right. simpl in *. injection H as H'.
      apply comprehension_fixed in H'. rewrite Forall_forall in H'.
      apply forallb_forall. intros [k w] Hin.
      destruct (H' (k, w) Hin) as [Hkeep Hfix]. simpl in *.
      assert (Hval : _filter_none w = w) by congruence.
      destruct (proj1 (IH (k, w) Hin) Hval) as [Hnone|Hfree];
        [|assumption].
      simpl in Hnone. subst w. discriminate.
    + intros [H|H]; [discriminate|]. simpl in *. f_equal.
      apply comprehension_fixed. apply Forall_forall. intros [k w] Hin.
      rewrite forallb_forall in H. specialize (H (k, w) Hin). simpl in *.
      split.
      * now apply none_free_is_not_none.
      * f_equal. apply (IH (k, w) Hin). now right.
Qed.

Lemma dict_lookup_absent k (d : dict) :
  ~ In k (keys d) -> dict_lookup k d = None.
Proof.
  induction d as [|[k' v] rest IH]; simpl; intros H; [reflexivity|].
  destruct (String.eqb_spec k k') as [->|Hk]; [now elim H; left|].
  apply IH. intros Hin. apply H. now right.
Qed.

Lemma keys_present_incl items k :
  In k (keys (present items)) -> In k (keys items).
Proof.
  intros H. apply keys_present_in in H. destruct H as (v & Hin & _).
  unfold keys. apply in_map_iff. now exists (k, v).
Qed.

Lemma NoDup_keys_present items :
  NoDup (keys items) -> NoDup (keys (present items)).
Proof.
  induction items as [|[k v] rest IH]; simpl; intros H; [constructor|].
  inversion H as [|? ? Hnotin Hrest]; subst.
  unfold present in *. simpl. destruct (is_not_none v); simpl; auto.
  constructor; auto. intros Hin. apply Hnotin.
  now apply keys_present_incl.
Qed.

Lemma dict_get_filter_none items k :
  NoDup (keys items) ->
  dict_get (map (fun kv => (fst kv, _filter_none (snd kv))) (present items)) k
  = _filter_none (dict_get items k).
Proof.
  unfold dict_get, dict_get_default.
  induction items as [|[k' v] rest IH]; simpl; intros H; [reflexivity|].
  inversion H as [|? ? Hnotin Hrest]; subst.
  unfold present in *. simpl.
  destruct (is_not_none v) eqn:Hv; simpl;
    destruct (String.eqb_spec k k') as [->|Hk]; auto.
  rewrite dict_lookup_absent.
  - unfold is_not_none in Hv. destruct v; simpl in *; congruence.
  - rewrite keys_filter_none_items. intros Hin. apply Hnotin.
    now apply keys_present_incl.
Qed.

(** Reading a field of the normalized mapping gives the normalized field of
    the input, for a mapping with distinct keys: a field that was [None]
    reads as missing, which [get] reports as [None]. *)
Theorem filter_none_then_get (items : dict) (k : string) :
  NoDup (keys items) ->
  exists out,
    _filter_none (VDict items) = VDict out
    /\ dict_get out k = _filter_none (dict_get items k).
Proof.
  intros H. rewrite filter_none_dict. eexists. split; [reflexivity|].
  now apply dict_get_filter_none.
Qed.

Lemma filter_none_then_get_witness :
  exists out,
    _filter_none (VDict [("a", VNone); ("b", VList [VNone; VInt 1])])
    = VDict out
    /\ dict_get out "b"
       = _filter_none
           (dict_get [("a", VNone); ("b", VList [VNone; VInt 1])] "b").
Proof.
  apply (filter_none_then_get [("a", VNone); ("b", VList [VNone; VInt 1])]).
  repeat constructor; simpl; intuition discriminate.
Defined.

(** The normalizer keeps the keys of every mapping distinct, at every depth. *)
Theorem filter_none_distinct_keys (v : value) :
  distinct_keys v -> distinct_keys (_filter_none v).
Proof.
  unfold distinct_keys. intros H.
  apply Forall_map with (f := @keys value) (P := @NoDup string).
  rewrite mappings_filter_none. apply Forall_map.
  eapply Forall_impl; [|exact H].
  intros items Hitems. now apply NoDup_keys_present.
Qed.

Lemma filter_none_distinct_keys_witness :
  distinct_keys
    (_filter_none (VDict [("a", VNone); ("b", VDict [("c", VInt 1)])])).
Proof.
  apply filter_none_distinct_keys.
  repeat constructor; simpl; intuition discriminate.
Defined.

(** ** The payload of update *)

Section UpdatePayload.

Variable guardrail_id : string.
Variables name blocked_input_messaging blocked_outputs_messaging
          description : option string.
Variables content_policy_config contextual_grounding_policy_config
          cross_region_config : option dict.
Variable kms_key_arn : option string.
Variable sensitive_information_policy_config : option dict.
Variable tags : option (list value).
Variables topic_policy_config word_policy_config : option dict.

(** The payload update sends always holds the identifier, holds the key of
    each of the twelve other fields, the name and the two messages among
    them, exactly when its argument is not [None], and holds no [None] at
    any depth; the one request of the operation is made with it. *)
Theorem update_payload_fields :
  exists kwargs,
    update_payload guardrail_id name blocked_input_messaging
      blocked_outputs_messaging description content_policy_config
      contextual_grounding_policy_config cross_region_config kms_key_arn
      sensitive_information_policy_config tags topic_policy_config
      word_policy_config
    = VDict kwargs
    /\ dict_lookup "guardrailIdentifier" kwargs = Some (VStr guardrail_id)
    /\ ((In "name" (keys kwargs) <-> name <> None)
        /\ (In "blockedInputMessaging" (keys kwargs)
            <-> blocked_input_messaging <> None)
        /\ (In "blockedOutputsMessaging" (keys kwargs)
            <-> blocked_outputs_messaging <> None)
        /\ (In "description" (keys kwargs) <-> description <> None)
        /\ (In "contentPolicyConfig" (keys kwargs)
            <-> content_policy_config <> None)
        /\ (In "contextualGroundingPolicyConfig" (keys kwargs)
            <-> contextual_grounding_policy_config <> None)
        /\ (In "crossRegionConfig" (keys kwargs)
            <-> cross_region_config <> None)
        /\ (In "kmsKeyId" (keys kwargs) <-> kms_key_arn <> None)
        /\ (In "sensitiveInformationPolicyConfig" (keys kwargs)
            <-> sensitive_information_policy_config <> None)
        /\ (In "tags" (keys kwargs) <-> tags <> None)
        /\ (In "topicPolicyConfig" (keys kwargs)
            <-> topic_policy_config <> None)
        /\ (In "wordPolicyConfig" (keys kwargs)
            <-> word_policy_config <> None))
    /\ none_free (VDict kwargs) = true
    /\ (forall bedrock : client,
           fst (update_guardrail_full bedrock guardrail_id name
                  blocked_input_messaging blocked_outputs_messaging
                  description content_policy_config
                  contextual_grounding_policy_config cross_region_config
                  kms_key_arn sensitive_information_policy_config tags
                  topic_policy_config word_policy_config)
           = match client_update_guardrail bedrock kwargs with
             | Raise (ClientError e) => Return [("error", VStr e)]
             | answer => answer
             end).
Proof.
  assert (Hfree : none_free
                    (update_payload guardrail_id name blocked_input_messaging
                       blocked_outputs_messaging description
                       content_policy_config
                       contextual_grounding_policy_config cross_region_config
                       kms_key_arn sensitive_information_policy_config tags
                       topic_policy_config word_policy_config) = true)
    by (apply none_free_filter_none; discriminate).
  unfold update_payload in *. rewrite filter_none_dict in *.
  eexists. split; [reflexivity|].
  split; [|split; [|split]].
  - unfold present. simpl. reflexivity.
  - repeat match goal with |- _ /\ _ => split end; sent_iff_supplied.
  - exact Hfree.
  - intros bedrock. unfold update_guardrail_full, update_payload.
    cbv zeta. rewrite filter_none_dict. unfold call_with_kwargs.
    destruct (client_update_guardrail bedrock _) as [response|[]];
      reflexivity.
Qed.

(** An update that gives the name and the two messages sends what create
    sends for the same arguments, with the identifier put in front. *)
Theorem update_payload_extends_create (name' blocked_in blocked_out : string) :
  name = Some name' ->
  blocked_input_messaging = Some blocked_in ->
  blocked_outputs_messaging = Some blocked_out ->
  exists kwargs,
    create_payload name' blocked_in blocked_out description
      content_policy_config contextual_grounding_policy_config
      cross_region_config kms_key_arn sensitive_information_policy_config
      tags topic_policy_config word_policy_config
    = VDict kwargs
    /\ update_payload guardrail_id name blocked_input_messaging
         blocked_outputs_messaging description content_policy_config
         contextual_grounding_policy_config cross_region_config kms_key_arn
         sensitive_information_policy_config tags topic_policy_config
         word_policy_config
       = VDict (("guardrailIdentifier", VStr guardrail_id) :: kwargs).
Proof.
  intros -> -> ->. unfold create_payload, update_payload.
  rewrite !filter_none_dict. eexists. split; reflexivity.
Qed.

End UpdatePayload.

Lemma update_payload_extends_create_witness :
  exists kwargs,
    create_payload "n" "in" "out" (Some "d") None None None None None None
      None None
    = VDict kwargs
    /\ update_payload "gr-1" (Some "n") (Some "in") (Some "out") (Some "d")
         None None None None None None None None
       = VDict (("guardrailIdentifier", VStr "gr-1") :: kwargs).
Proof.
  apply (update_payload_extends_create "gr-1" (Some "n") (Some "in")
           (Some "out") (Some "d") None None None None None None None None
           "n" "in" "out"); reflexivity.
Defined.

(** ** What the operations let out and what they log *)

Lemma try_except_ClientError_never_raises_it {A : Type} (body : outcome A)
    line soft e :
  fst (try_except_ClientError body line soft) <> Raise (ClientError e).
Proof. destruct body as [a|[]]; simpl; discriminate. Qed.

Lemma try_except_ClientError_log {A : Type} (body : outcome A) line soft :
  snd (try_except_ClientError body line soft)
  = match body with
    | Raise (ClientError e) => [line e]
    | _ => []
    end.
Proof. destruct body as [a|[]]; reflexivity. Qed.

Section Operations.

Variable float_repr : spec_float -> string.
Variable bedrock : client.

(** No operation ever lets a [ClientError] out, whatever the client does
    and whatever the arguments are. *)
Theorem no_client_error_gets_out (e : string) :
  fst (list_guardrails bedrock) <> Raise (ClientError e)
  /\ (forall guardrail_id,
         fst (get_guardrail bedrock guardrail_id) <> Raise (ClientError e))
  /\ (forall name blocked_in blocked_out description content grounding
             cross_region kms sensitive tags topic word,
         fst (create_guardrail_full bedrock name blocked_in blocked_out
                description content grounding cross_region kms sensitive
                tags topic word)
         <> Raise (ClientError e))
  /\ (forall guardrail_id name blocked_in blocked_out description content
             grounding cross_region kms sensitive tags topic word,
         fst (update_guardrail_full bedrock guardrail_id name blocked_in
                blocked_out description content grounding cross_region kms
                sensitive tags topic word)
         <> Raise (ClientError e))
  /\ (forall guardrail_id tf_resource_name,
         fst (export_guardrail_to_terraform float_repr bedrock guardrail_id
                tf_resource_name)
         <> Raise (ClientError e))
  /\ (forall guardrail_id,
         fst (delete_guardrail bedrock guardrail_id) <> Raise (ClientError e)).
Proof.
  repeat match goal with |- _ /\ _ => split end; intros;
    apply try_except_ClientError_never_raises_it.
Qed.

(** The operations that take an identifier log one line when the service
    answers with a [ClientError], made of the operation, the identifier and
    the error, and log nothing in any other case. *)
Theorem log_of_identified_operations (guardrail_id : string) :
  snd (get_guardrail bedrock guardrail_id)
  = match client_get_guardrail bedrock guardrail_id with
    | Raise (ClientError e) =>
        ["Error getting guardrail " ++ guardrail_id ++ ": " ++ e]
    | _ => []
    end
  /\ (forall tf_resource_name,
         snd (export_guardrail_to_terraform float_repr bedrock guardrail_id
                tf_resource_name)
         = match client_get_guardrail bedrock guardrail_id with
           | Raise (ClientError e) =>
               ["Error exporting guardrail " ++ guardrail_id
                  ++ " to terraform: " ++ e]
           | _ => []
           end)
  /\ snd (delete_guardrail bedrock guardrail_id)
     = match client_delete_guardrail bedrock guardrail_id with
       | Raise (ClientError e) =>
           ["Error deleting guardrail " ++ guardrail_id ++ ": " ++ e]
       | _ => []
       end.
Proof.
  split; [|split].
  - unfold get_guardrail. rewrite try_except_ClientError_log.
    destruct (client_get_guardrail bedrock guardrail_id) as [r|[]];
      reflexivity.
  - intros tf_resource_name. unfold export_guardrail_to_terraform.
    rewrite try_except_ClientError_log.
    destruct (client_get_guardrail bedrock guardrail_id) as [r|[]];
      try reflexivity.
    simpl. destruct (truthy (dict_get r "guardrail")); simpl;
      [|reflexivity].
    destruct (dict_get r "guardrail"); reflexivity.
  - unfold delete_guardrail. rewrite try_except_ClientError_log.
    destruct (client_delete_guardrail bedrock guardrail_id) as [r|[]];
      reflexivity.
Qed.

End Operations.

(** ** Listing: pages that do not carry a list, and partial results *)

Lemma for_page_in_app pages : forall summaries rest guardrails,
  Forall2 page_summaries pages summaries ->
  for_page_in (map Return pages ++ rest)%list guardrails
  = for_page_in rest (guardrails ++ List.concat summaries)%list.
Proof.
  induction pages as [|page more IH]; intros summaries rest guardrails H;
    inversion H as [|? xs ? others Hpage Hrest]; subst; simpl.
  - now rewrite app_nil_r.
  - unfold page_summaries in Hpage. rewrite Hpage. simpl.
    rewrite (IH others) by assumption. now rewrite app_assoc.
Qed.

(** The default of [page.get("guardrailSummaries", [])] stands in for a
    missing key only: a page that has the key with [None], or with a number
    or a boolean, makes list raise a [TypeError], which is not caught, though
    every request succeeded. *)
Theorem list_guardrails_summaries_not_iterable
    (bedrock : client) pages summaries page rest v :
  paginate_list_guardrails bedrock
  = (map Return pages ++ Return page :: rest)%list ->
  Forall2 page_summaries pages summaries ->
  dict_lookup "guardrailSummaries" page = Some v ->
  (forall xs, v <> VList xs) -> (forall items, v <> VDict items) ->
  (forall s, v <> VStr s) ->
  list_guardrails bedrock = (Raise TypeError, []).
Proof.
  intros Hpages Hsum Hv Hlist Hdict Hstr. unfold list_guardrails.
  rewrite Hpages, (for_page_in_app pages summaries) by assumption.
  simpl. unfold dict_get_default. rewrite Hv.
  destruct v; try reflexivity.
  - now elim (Hstr s).
  - now elim (Hlist xs).
  - now elim (Hdict items).
Qed.

Lemma list_guardrails_summaries_not_iterable_witness :
  list_guardrails
    (serving_client
       [[("guardrailSummaries", VList [summary "g1"])];
        [("guardrailSummaries", VNone)]] [])
  = (Raise TypeError, []).
Proof.
  apply (list_guardrails_summaries_not_iterable _
           [[("guardrailSummaries", VList [summary "g1"])]]
           [[summary "g1"]] [("guardrailSummaries", VNone)] [] VNone);
    try discriminate; try reflexivity.
  repeat constructor.
Defined.

Lemma for_page_in_result pages : pages_carry_lists pages ->
  forall guardrails,
    (exists good summaries,
        pages = map Return good
        /\ Forall2 page_summaries good summaries
        /\ for_page_in pages guardrails
           = Return (guardrails ++ List.concat summaries)%list)
    \/ (exists x, In (Raise x) pages /\ for_page_in pages guardrails = Raise x).
Proof.
  induction pages as [|[page|x] rest IH]; intros Hpages guardrails.
  - left. exists [], []. simpl. rewrite app_nil_r. repeat split. constructor.
  - inversion Hpages as [|? ? Hpage Hrest]; subst.
    destruct (Hpage page eq_refl) as [xs Hxs].
    simpl. unfold page_summaries in Hxs. rewrite Hxs. simpl.
    destruct (IH Hrest (guardrails ++ xs)%list)
      as [(good & summaries & -> & Hsum & Hres)|(x & Hin & Hres)].
    + left. exists (page :: good), (xs :: summaries). simpl.
      rewrite Hres, app_assoc. repeat split. now constructor.
    + right. exists x. split; [now right|assumption].
  - right. exists x. split; [now left|reflexivity].
Qed.

(** List never returns a part of the summaries: when every page that
    arrives carries a list, the result is the summaries of all the pages,
    the pagination having run to its end, or it is empty because a request
    ended in a [ClientError], whatever the earlier pages had brought. *)
Theorem list_guardrails_all_or_nothing (bedrock : client) (xs : list value) :
  pages_carry_lists (paginate_list_guardrails bedrock) ->
  fst (list_guardrails bedrock) = Return xs ->
  (exists pages summaries,
      paginate_list_guardrails bedrock = map Return pages
      /\ Forall2 page_summaries pages summaries
      /\ xs = List.concat summaries)
  \/ (xs = []
      /\ exists e, In (Raise (ClientError e)) (paginate_list_guardrails bedrock)).
Proof.
  intros Hpages. unfold list_guardrails.
  destruct (for_page_in_result _ Hpages [])
    as [(good & summaries & Heq & Hsum & Hres)|(x & Hin & Hres)];
    rewrite Hres; simpl.
  - intros H. inversion H; subst. left. now exists good, summaries.
  - destruct x; simpl; try discriminate.
    intros H. inversion H; subst. right. split; [reflexivity|].
    now exists message.
Qed.

Lemma list_guardrails_all_or_nothing_witness :
  (exists pages summaries,
      paginate_list_guardrails
        {| paginate_list_guardrails :=
             [Return [("guardrailSummaries", VList [summary "g1"])];
              Raise (ClientError "Throttled")];
           client_get_guardrail := fun _ => Return [];
           client_create_guardrail := fun _ => Return [];
           client_update_guardrail := fun _ => Return [];
           client_delete_guardrail := fun _ => Return [] |}
      = map Return pages
      /\ Forall2 page_summaries pages summaries
      /\ @nil value = List.concat summaries)
  \/ (@nil value = []
      /\ exists e,
          In (Raise (ClientError e))
            [Return [("guardrailSummaries", VList [summary "g1"])];
             Raise (ClientError "Throttled")]).
Proof.
  apply (list_guardrails_all_or_nothing
           {| paginate_list_guardrails :=
                [Return [("guardrailSummaries", VList [summary "g1"])];
                 Raise (ClientError "Throttled")];
              client_get_guardrail := fun _ => Return [];
              client_create_guardrail := fun _ => Return [];
              client_update_guardrail := fun _ => Return [];
              client_delete_guardrail := fun _ => Return [] |} []).
  - repeat constructor; intros page H; inversion H; subst.
    exists [summary "g1"]. reflexivity.
  - reflexivity.
Defined.

(** ** Export: what it reads of the configuration *)

Lemma export_fetched float_repr bedrock guardrail_id label response g :
  client_get_guardrail bedrock guardrail_id = Return response ->
  dict_get response "guardrail" = VDict g -> g <> [] ->
  export_guardrail_to_terraform float_repr bedrock guardrail_id label
  = (Return (tf_header (match label with
                        | Some l => l
                        | None => default_tf_resource_name
                        end)
               ++ json_dumps float_repr (tf_props g) 2), []).
Proof.
  intros Hresp Hg Hne. unfold export_guardrail_to_terraform.
  rewrite Hresp. unfold bind. rewrite Hg.
  replace (truthy (VDict g)) with true by (now destruct g).
  reflexivity.
Qed.

Lemma tf_properties_ext g g' :
  (forall names, In names tf_field_names ->
                 dict_get g (fst names) = dict_get g' (fst names)) ->
  tf_properties g = tf_properties g'.
Proof.
  intros H. rewrite !tf_properties_rekeyed. f_equal.
  induction tf_field_names as [|names rest IH]; [reflexivity|].
  simpl. rewrite (H names) by now left.
  destruct (is_not_none (dict_get g' (fst names))); simpl;
    rewrite ?(H names) by (now left);
    rewrite IH by (intros n Hn; apply H; now right); reflexivity.
Qed.

(** Export reads the twelve fields of the table and nothing else: two
    fetched configurations that agree on them, whatever else they hold,
    give the same text. *)
Theorem export_reads_table_fields_only
    float_repr (bedrock bedrock' : client) guardrail_id label
    response response' g g' :
  client_get_guardrail bedrock guardrail_id = Return response ->
  client_get_guardrail bedrock' guardrail_id = Return response' ->
  dict_get response "guardrail" = VDict g -> g <> [] ->
  dict_get response' "guardrail" = VDict g' -> g' <> [] ->
  (forall names, In names tf_field_names ->
                 dict_get g (fst names) = dict_get g' (fst names)) ->
  export_guardrail_to_terraform float_repr bedrock guardrail_id label
  = export_guardrail_to_terraform float_repr bedrock' guardrail_id label.
Proof.
  intros Hresp Hresp' Hg Hne Hg' Hne' Hsame.
  rewrite (export_fetched _ _ _ _ response g) by assumption.
  rewrite (export_fetched _ _ _ _ response' g') by assumption.
  unfold tf_props. now rewrite (tf_properties_ext g g').
Qed.

Lemma export_reads_table_fields_only_witness :
  export_guardrail_to_terraform (fun _ => "0.0")
    (serving_client []
       [("guardrail", VDict [("name", VStr "g1"); ("status", VStr "READY")])])
    "gr-1" None
  = export_guardrail_to_terraform (fun _ => "0.0")
      (serving_client []
         [("guardrail", VDict [("version", VInt 3); ("name", VStr "g1");
                               ("description", VNone)])])
      "gr-1" None.
Proof.
  apply (export_reads_table_fields_only _ _ _ _ _
           [("guardrail",
             VDict [("name", VStr "g1"); ("status", VStr "READY")])]
           [("guardrail",
             VDict [("version", VInt 3); ("name", VStr "g1");
                    ("description", VNone)])]
           [("name", VStr "g1"); ("status", VStr "READY")]
           [("version", VInt 3); ("name", VStr "g1"); ("description", VNone)]);
    try reflexivity; try discriminate.
  intros names Hin. simpl in Hin.
  repeat (destruct Hin as [<-|Hin]; [reflexivity|]). destruct Hin.
Defined.

(** A [guardrail] field that is true but is not a mapping, a text or a list
    that is not empty, is returned by get as it is and makes export raise an
    [AttributeError], which is not caught. *)
Theorem export_of_non_mapping_raises
    float_repr (bedrock : client) guardrail_id label response :
  client_get_guardrail bedrock guardrail_id = Return response ->
  truthy (dict_get response "guardrail") = true ->
  (forall g, dict_get response "guardrail" <> VDict g) ->
  export_guardrail_to_terraform float_repr bedrock guardrail_id label
  = (Raise AttributeError, [])
  /\ get_guardrail bedrock guardrail_id
     = (Return (dict_get response "guardrail"), []).
Proof.
  intros Hresp Htrue Hnot. split.
  - unfold export_guardrail_to_terraform. rewrite Hresp. unfold bind.
    rewrite Htrue. cbv beta iota delta [negb].
    destruct (dict_get response "guardrail"); try reflexivity.
    now elim (Hnot items).
  - unfold get_guardrail. now rewrite Hresp.
Qed.

Lemma export_of_non_mapping_raises_witness :
  export_guardrail_to_terraform (fun _ => "0.0")
    (serving_client [] [("guardrail", VStr "g1")]) "gr-1" None
  = (Raise AttributeError, [])
  /\ get_guardrail (serving_client [] [("guardrail", VStr "g1")]) "gr-1"
     = (Return (dict_get [("guardrail", VStr "g1")] "guardrail"), []).
Proof.
  apply (export_of_non_mapping_raises _ _ _ _ [("guardrail", VStr "g1")]);
    try reflexivity.
  intros g. discriminate.
Defined.

(** ** Credentials that are set but empty *)

(** A credential that is set to the empty text counts as unset: with both
    keys set and not empty they are passed, and the session token with them
    exactly when it is set and not empty; with a key set to the empty text
    the region is all that is passed, even when a token is set. *)
Theorem boto3_kwargs_empty_values (env : environ) :
  (forall id secret,
      environ_lookup env "AWS_ACCESS_KEY_ID" = Some id ->
      environ_lookup env "AWS_SECRET_ACCESS_KEY" = Some secret ->
      id <> EmptyString -> secret <> EmptyString ->
      dict_lookup "aws_access_key_id" (boto3_kwargs env) = Some (VStr id)
      /\ dict_lookup "aws_secret_access_key" (boto3_kwargs env)
         = Some (VStr secret)
      /\ (In "aws_session_token" (keys (boto3_kwargs env))
          <-> exists token,
                environ_lookup env "AWS_SESSION_TOKEN" = Some token
                /\ token <> EmptyString))
  /\ (environ_lookup env "AWS_ACCESS_KEY_ID" = Some EmptyString
      \/ environ_lookup env "AWS_SECRET_ACCESS_KEY" = Some EmptyString ->
      keys (boto3_kwargs env) = ["region_name"]).
Proof.
  unfold boto3_kwargs, environ_get, environ_get_default. split.
  - intros id secret Hid Hsecret Hne Hne'. rewrite Hid, Hsecret. simpl.
    destruct (String.eqb_spec id EmptyString) as [|_]; [contradiction|].
    destruct (String.eqb_spec secret EmptyString) as [|_]; [contradiction|].
    simpl.
    destruct (environ_lookup env "AWS_REGION");
      destruct (environ_lookup env "AWS_SESSION_TOKEN") as [token|]; simpl;
      try destruct (String.eqb_spec token EmptyString) as [->|Htoken]; simpl;
      repeat split; intros H;
      repeat match goal with
             | H : _ \/ _ |- _ => destruct H
             | H : False |- _ => destruct H
             | H : exists _, _ |- _ => destruct H as (? & ? & ?)
             | H : Some _ = Some _ |- _ => inversion H; clear H; subst
             | H : @eq string _ _ |- _ => discriminate H
             | H : None = Some _ |- _ => discriminate H
             end;
      try congruence; eauto 10.
  - intros [H|H]; rewrite H; simpl;
      destruct (environ_lookup env "AWS_REGION");
      try destruct (environ_lookup env "AWS_ACCESS_KEY_ID") as [id|];
      simpl; try destruct (String.eqb id EmptyString); reflexivity.
Qed.

Lemma boto3_kwargs_empty_values_witness :
  dict_lookup "aws_access_key_id"
    (boto3_kwargs [("AWS_ACCESS_KEY_ID", "AKIA");
                   ("AWS_SECRET_ACCESS_KEY", "s3");
                   ("AWS_SESSION_TOKEN", "")])
  = Some (VStr "AKIA")
  /\ dict_lookup "aws_secret_access_key"
       (boto3_kwargs [("AWS_ACCESS_KEY_ID", "AKIA");
                      ("AWS_SECRET_ACCESS_KEY", "s3");
                      ("AWS_SESSION_TOKEN", "")])
     = Some (VStr "s3")
  /\ (In "aws_session_token"
        (keys (boto3_kwargs [("AWS_ACCESS_KEY_ID", "AKIA");
                             ("AWS_SECRET_ACCESS_KEY", "s3");
                             ("AWS_SESSION_TOKEN", "")]))
      <-> exists token,
            environ_lookup [("AWS_ACCESS_KEY_ID", "AKIA");
                            ("AWS_SECRET_ACCESS_KEY", "s3");
                            ("AWS_SESSION_TOKEN", "")] "AWS_SESSION_TOKEN"
            = Some token
            /\ token <> EmptyString).
Proof.
  destruct (boto3_kwargs_empty_values
              [("AWS_ACCESS_KEY_ID", "AKIA"); ("AWS_SECRET_ACCESS_KEY", "s3");
               ("AWS_SESSION_TOKEN", "")]) as (H & _).
  apply H; try reflexivity; discriminate.
Defined.
